(** * uitk/events.cpp: event forwarding and mouse tracking

    A shallow embedding of the two event filters of [events.cpp]

    - [EventFactoryFilter], which forwards an event to a slot of another
      object whose name is derived from the event type, and
    - [MouseTracking], which follows the widget under the cursor, sends
      Enter/Leave events, posts release events and hands the mouse grab over.

    The host toolkit (Qt) is not part of the file: its hit-testing, widget
    tree, meta-object and widget properties are a read-only record of
    functions ([Toolkit]). What the code does to it (the events it sends and
    posts, the grabs and releases, the hit tests it asks for, the slots it
    invokes) and what it writes (its own fields, a widget's handler) is
    recorded, in order, in a trace of operations ([Op]). A member function
    called through a null pointer ends the run: nothing after it is
    executed, and the filter does not return. *)

From Stdlib Require Import ZArith Ascii String DecimalString.
From stdpp Require Import gmap strings list.


(** ** Strings as the code uses them *)

Module Str.

(** [c] occurs in [s]. *)
Fixpoint mem (c : ascii) (s : string) : bool :=
  match s with
  | EmptyString => false
  | String d s' => if Ascii.eqb c d then true else mem c s'
  end.

(** [s2] is what is left of [s1] after some prefix was consumed. *)
Inductive suffix (s2 : string) : string → Prop :=
| suffix_here : suffix s2 s2
| suffix_later c s1 : suffix s2 s1 → suffix s2 (String c s1).

(** ASCII lower-casing, which is what [QString::toLower] does on the one
    character class ([A-Z]) it is applied to here. *)
Definition lower_ascii (c : ascii) : ascii :=
  let n := nat_of_ascii c in
  if (65 <=? n)%nat && (n <=? 90)%nat then ascii_of_nat (n + 32) else c.

Fixpoint toLower (s : string) : string :=
  match s with
  | EmptyString => EmptyString
  | String c s' => String (lower_ascii c) (toLower s')
  end.

(** [QString::number(int)]: the decimal rendering, with a leading minus
    sign for a negative value. *)
Definition number (n : Z) : string := NilZero.string_of_int (Z.to_int n).

End Str.

(** ** Regular expressions ([std::regex], ECMAScript grammar)

    The fragment the pattern of [formatEventName] is written in, matched by
    backtracking with greedy quantifiers, the way [std::regex_match] does:
    the whole string has to be matched, and the first successful path in
    priority order decides the captures. *)

Module Regex.

Inductive regex : Type :=
| Eps                           (* empty *)
| Bol                           (* ^ *)
| Eol                           (* $ *)
| Chr (p : ascii → bool)        (* a character, a class, or . *)
| Cat (r1 r2 : regex)
| Star (r : regex)              (* r*, greedy *)
| Opt (r : regex)               (* r?, greedy *)
| NonCapturing (r : regex)      (* (?:r) *)
| Group (n : nat) (r : regex).  (* the n-th capturing group (r) *)

(** [matches[n]]: the text of each group that took part in the match. *)
Abbreviation smatch := (gmap nat string).

Definition str (m : smatch) (n : nat) : string := default "" (m !! n).

Section Matcher.
Context {R : Type}.

(** What to do with the rest of the input: the position reached, the
    remaining characters and the captures so far. *)
Definition cont : Type := nat → string → smatch → option R.

Fixpoint run (r : regex) (pos : nat) (s : string) (caps : smatch)
    (k : cont) {struct r} : option R :=
  match r with
  | Eps => k pos s caps
  | Bol => if decide (pos = 0%nat) then k pos s caps else None
  | Eol => match s with EmptyString => k pos s caps | String _ _ => None end
  | Chr p =>
      match s with
      | String c s' => if p c then k (S pos) s' caps else None
      | EmptyString => None
      end
  | Cat r1 r2 =>
      run r1 pos s caps (λ pos' s' caps', run r2 pos' s' caps' k)
  | Opt r1 =>
      match run r1 pos s caps k with
      | Some x => Some x
      | None => k pos s caps
      end
  | NonCapturing r1 => run r1 pos s caps k
  | Group n r1 =>
      run r1 pos s caps
        (λ pos' s' caps', k pos' s' (<[n := substring 0 (pos' - pos) s]> caps'))
  | Star r1 =>
      (fix iterate (fuel : nat) (pos : nat) (s : string) (caps : smatch)
         : option R :=
         match fuel with
         | O => k pos s caps
         | S fuel' =>
             match
               run r1 pos s caps
                 (λ pos' s' caps',
                    if decide (pos < pos')%nat
                    then iterate fuel' pos' s' caps' else None)
             with
             | Some x => Some x
             | None => k pos s caps
             end
         end) (String.length s) pos s caps
  end.
End Matcher.

(** [std::regex_match(s, matches, r)]: [Some matches] when the whole of [s]
    matches, [None] otherwise. *)
Definition regex_match (s : string) (r : regex) : option smatch :=
  run r 0 s ∅
    (λ _ rest caps, match rest with EmptyString => Some caps | _ => None end).

(** Atoms of the concrete syntax. *)
Definition lit (c : ascii) : regex := Chr (Ascii.eqb c).
Definition dot : regex :=
  Chr (λ c, negb (Ascii.eqb c "010"%char || Ascii.eqb c "013"%char)).
Definition upper : regex :=
  Chr (λ c, (65 <=? nat_of_ascii c)%nat && (nat_of_ascii c <=? 90)%nat).
Definition not_char (c : ascii) : regex := Chr (λ d, negb (Ascii.eqb d c)).

Fixpoint word (s : string) : regex :=
  match s with
  | EmptyString => Eps
  | String c s' => Cat (lit c) (word s')
  end.

End Regex.

(** ** The host toolkit

    Objects are known by their identity (their address); a nullable pointer
    is an [option]. Everything the code asks of the toolkit is a field of
    [Toolkit], a snapshot of the application at the time an event is
    filtered. *)

Module Qt.

Definition QObject : Type := nat.
Definition QPoint : Type := (Z * Z)%type.

(** Values of [QEvent::Type], [Qt::MouseButton] and
    [Qt::KeyboardModifier] as the toolkit's headers give them. *)
Definition MouseButtonRelease : Z := 3.
Definition MouseMove : Z := 5.
Definition Enter : Z := 10.
Definition Leave : Z := 11.
Definition NoButton : Z := 0.
Definition NoModifier : Z := 0.

Inductive QEvent : Type :=
| Event (type : Z)
| MouseEvent (type : Z) (pos : QPoint) (button buttons modifiers : Z).

Definition type (e : QEvent) : Z :=
  match e with Event t => t | MouseEvent t _ _ _ _ => t end.

(** [static_cast<QMouseEvent*>(event)->button()] *)
Definition button (e : QEvent) : Z :=
  match e with Event _ => NoButton | MouseEvent _ _ b _ _ => b end.

Record Toolkit : Type := {
  inherits : QObject → string → bool;        (* obj->inherits(className) *)
  indexOfSlot : QObject → string → Z;        (* obj->metaObject()->indexOfSlot(sig) *)
  normalizedSignature : string → string;     (* QMetaObject::normalizedSignature *)
  cursor_pos : QPoint;                       (* QCursor::pos() *)
  widgetAt : QPoint → option QObject;        (* QApplication::widgetAt *)
  activeWindow : option QObject;             (* QApplication::activeWindow() *)
  findChildren : QObject → list QObject;     (* w->findChildren<QWidget*>() *)
  isDown : QObject → bool;                   (* QAbstractButton::isDown *)
  view_isVisible : QObject → bool;           (* combo->view()->isVisible() *)
  isSliderDown : QObject → bool              (* QAbstractSlider::isSliderDown *)
}.

(** [QObject::eventFilter], the base class's filter: the toolkit's own
    implementation lets every event through. *)
Definition QObject_eventFilter (obj : QObject) (event : QEvent) : bool := false.

(** [qobject_cast<T*>(obj)]: the object itself when it is a [T], null
    otherwise. *)
Definition qobject_cast (tk : Toolkit) (T : string) (obj : QObject)
    : option QObject :=
  if inherits tk obj T then Some obj else None.

(** A widget's [mouseMoveEvent] handler: the one its class defines, or a
    wrapper the tracker has put around an earlier handler. *)
Inductive Handler : Type :=
| ClassHandler
| CallThenIgnore (originalMouseMoveEvent : Handler).

(** What the code does, in the order it does it: the calls it makes into
    the toolkit, each on the object it is made on (plain property reads such
    as [isDown] are not recorded), and the writes to its own fields and to
    widgets. A call through a null pointer is not an operation: it ends the
    run (see [MouseTracking.nullDereference]). *)
Inductive Op : Type :=
| InvokeMethod (target : QObject) (member : string)
               (arg1 : option QObject) (arg2 : QEvent)
| InstallEventFilter (watched filter : QObject)
| WidgetAt (p : QPoint)
| SendEvent (receiver : QObject) (e : QEvent)
| PostEvent (receiver : QObject) (e : QEvent)
| GrabMouse (receiver : QObject)
| ReleaseMouse (receiver : QObject)
| Set_widgets (l : list QObject)
| Set_mouseOver (l : list QObject)
| Set_prevMouseOver (l : list QObject)
| Insert_filteredWidgets (w : QObject)
| Set_mouseMoveEvent (w : QObject) (h : Handler).

End Qt.

(** ** EventFactoryFilter *)

Module EventFactoryFilter.
Import Regex Qt.

Record t : Type := {
  forwardEventsTo : QObject;
  eventNamePrefix : string
}.

(** The constructor: events go to [this] when no target is given. *)
Definition new (this : QObject) (forwardEventsTo : option QObject)
    (eventNamePrefix : string) : t :=
  {| forwardEventsTo := default this forwardEventsTo;
     eventNamePrefix := eventNamePrefix |}.

(** The pattern of the source, term by term: start of input, any run of
    characters, a literal dot, group 1 (one upper-case letter), group 2 (a
    run of characters other than B), an optional non-capturing Button,
    group 3 (the rest), end of input. *)
Definition regexPattern : regex :=
  Cat Bol
 (Cat (Star dot)
 (Cat (lit ".")
 (Cat (Group 1 upper)
 (Cat (Group 2 (Star (not_char "B")))
 (Cat (Opt (NonCapturing (word "Button")))
 (Cat (Group 3 (Star dot))
      Eol)))))).

(** The name the pattern derives from a text that matches it. *)
Definition formattedName (prefix : string) (matches : smatch) : string :=
  prefix +:+ Str.toLower (str matches 1) +:+ str matches 2 +:+ str matches 3
         +:+ "Event".

Definition formatEventName (eventType : Z) (prefix : string) : string :=
  let eventTypeStr := Str.number eventType in
  match regex_match eventTypeStr regexPattern with
  | Some matches => formattedName prefix matches
  | None => prefix +:+ "event"
  end.

(** [eventFilter(obj, event)]: the result and the calls made. *)
Definition eventFilter (tk : Toolkit) (self : t) (obj : QObject)
    (event : QEvent) : bool * list Op :=
  let methodName := formatEventName (type event) (eventNamePrefix self) in
  if (0 <=? indexOfSlot tk (forwardEventsTo self)
               (normalizedSignature tk (methodName +:+ "(QWidget*, QEvent*)")))%Z
  then (true, [InvokeMethod (forwardEventsTo self) methodName
                 (qobject_cast tk "QWidget" obj) event])
  else (false, []).

End EventFactoryFilter.

(** ** MouseTracking *)

Module MouseTracking.
Import Qt.

Record t : Type := {
  parent : QObject;
  _prevMouseOver : list QObject;
  _mouseOver : list QObject;
  _filteredWidgets : gset QObject;
  _widgets : list QObject
}.

(** What the code can write: its own fields, and the [mouseMoveEvent]
    member of widgets (a widget without an entry has its class's handler). *)
Record State : Type := {
  this : t;
  mouseMoveEvent : gmap QObject Handler
}.

Definition handlerOf (σ : State) (w : QObject) : Handler :=
  default ClassHandler (mouseMoveEvent σ !! w).

(** Member functions run on a state and give their result, the state they
    leave and the operations performed. The result is [None] when the run
    ended in a call through a null pointer: the state and the operations are
    then those up to that call, and nothing after it is run. *)
Definition M (A : Type) : Type := State → option A * State * list Op.

Global Instance M_ret : MRet M := λ A x σ, (Some x, σ, []).
Global Instance M_bind : MBind M := λ A B f c σ,
  let '(r, σ1, ops1) := c σ in
  match r with
  | Some x => let '(y, σ2, ops2) := f x σ1 in (y, σ2, ops1 ++ ops2)
  | None => (None, σ1, ops1)
  end.

Definition get : M t := λ σ, (Some (this σ), σ, []).
Definition call (o : Op) : M unit := λ σ, (Some tt, σ, [o]).

(** A member function called through a null pointer: the program stops. *)
Definition nullDereference {A} : M A := λ σ, (None, σ, []).

Definition update (f : t → t) (o : Op) : M unit :=
  λ σ, (Some tt, {| this := f (this σ); mouseMoveEvent := mouseMoveEvent σ |}, [o]).

Definition set_widgets (l : list QObject) : M unit :=
  update (λ s, {| parent := parent s; _prevMouseOver := _prevMouseOver s;
                  _mouseOver := _mouseOver s;
                  _filteredWidgets := _filteredWidgets s; _widgets := l |})
         (Set_widgets l).

Definition set_mouseOver (l : list QObject) : M unit :=
  update (λ s, {| parent := parent s; _prevMouseOver := _prevMouseOver s;
                  _mouseOver := l;
                  _filteredWidgets := _filteredWidgets s; _widgets := _widgets s |})
         (Set_mouseOver l).

Definition set_prevMouseOver (l : list QObject) : M unit :=
  update (λ s, {| parent := parent s; _prevMouseOver := l;
                  _mouseOver := _mouseOver s;
                  _filteredWidgets := _filteredWidgets s; _widgets := _widgets s |})
         (Set_prevMouseOver l).

Definition insert_filteredWidgets (w : QObject) : M unit :=
  update (λ s, {| parent := parent s; _prevMouseOver := _prevMouseOver s;
                  _mouseOver := _mouseOver s;
                  _filteredWidgets := {[w]} ∪ _filteredWidgets s;
                  _widgets := _widgets s |})
         (Insert_filteredWidgets w).

Definition get_mouseMoveEvent (w : QObject) : M Handler :=
  λ σ, (Some (handlerOf σ w), σ, []).

Definition set_mouseMoveEvent (w : QObject) (h : Handler) : M unit :=
  λ σ, (Some tt,
        {| this := this σ; mouseMoveEvent := <[w := h]> (mouseMoveEvent σ) |},
        [Set_mouseMoveEvent w h]).

(** [widget->grabMouse()], on a pointer the code does not test. *)
Definition grabMouse (widget : option QObject) : M unit :=
  match widget with
  | Some w => call (GrabMouse w)
  | None => nullDereference
  end.

(** [for (x : l) body] *)
Fixpoint for_ {A} (l : list A) (body : A → M unit) : M unit :=
  match l with
  | [] => mret tt
  | x :: l' => body x ;; for_ l' body
  end.

(** [l.contains(w)] *)
Definition contains (l : list QObject) (w : QObject) : bool :=
  bool_decide (w ∈ l).

Section Code.
Variable tk : Toolkit.

(** The constructor: the fields start empty and the filter is installed
    on the parent; [None] is [qFatal]. *)
Definition new (self parent : QObject) : option (t * list Op) :=
  if negb (inherits tk parent "QWidget") then None
  else Some ({| parent := parent; _prevMouseOver := []; _mouseOver := [];
                _filteredWidgets := ∅; _widgets := [] |},
             [InstallEventFilter parent self]).

Definition widgetConditions : list (string * (QObject → bool)) :=
  [ ("QPushButton", λ w, negb (isDown tk w));
    ("QComboBox", λ w, negb (view_isVisible tk w));
    ("QSlider", λ w, negb (isSliderDown tk w));
    ("QScrollBar", λ w, negb (isSliderDown tk w)) ].

Fixpoint firstCondition (conditions : list (string * (QObject → bool)))
    (widget : QObject) : bool :=
  match conditions with
  | [] => true
  | (widgetType, condition) :: rest =>
      if inherits tk widget widgetType && condition widget then false
      else firstCondition rest widget
  end.

Definition shouldCaptureMouse (widget : QObject) : bool :=
  firstCondition widgetConditions widget.

(** [QApplication::widgetAt(QCursor::pos())] *)
Definition widgetAtCursor : M (option QObject) :=
  call (WidgetAt (cursor_pos tk)) ;; mret (widgetAt tk (cursor_pos tk)).

(** The parent is a widget (the constructor saw to it), so the cast is
    the parent itself. *)
Definition getChildWidgets : M unit :=
  s ← get;
  let parentWidget := parent s in
  set_widgets (findChildren tk parentWidget).

Definition updateWidgetsUnderCursor : M unit :=
  getChildWidgets ;;
  topWidget ← widgetAtCursor;
  s ← get;
  set_mouseOver
    match topWidget with
    | Some w => if contains (_widgets s) w then [w] else []
    | None => []
    end.

Definition releaseMouseForWidgets (widgets : list QObject) : M unit :=
  for_ widgets (λ widget, call (ReleaseMouse widget)).

Definition sendLeaveEvent (widget : QObject) : M unit :=
  let leaveEvent := Event Leave in
  call (SendEvent widget leaveEvent).

Definition sendEnterEvent (widget : QObject) : M unit :=
  let enterEvent := Event Enter in
  call (SendEvent widget enterEvent).

Definition sendReleaseEvent (widget : QObject) (button : Z) : M unit :=
  let releaseEvent :=
    MouseEvent MouseButtonRelease (cursor_pos tk) button button NoModifier in
  call (PostEvent widget releaseEvent).

Definition handleMouseGrab : M unit :=
  topWidget ← widgetAtCursor;
  match topWidget with
  | Some w =>
      let widgetToGrab :=
        if shouldCaptureMouse w then Some w else activeWindow tk in
      grabMouse widgetToGrab
  | None => grabMouse (activeWindow tk)
  end.

Definition handleViewportWidget (widget : option QObject) : M unit :=
  match widget with
  | None => mret tt
  | Some w =>
      originalMouseMoveEvent ← get_mouseMoveEvent w;
      set_mouseMoveEvent w (CallThenIgnore originalMouseMoveEvent)
  end.

Definition filterViewportWidgets : M unit :=
  s ← get;
  for_ (_widgets s) (λ widget,
    s ← get;
    if inherits tk widget "QAbstractScrollArea"
       && negb (bool_decide (widget ∈ _filteredWidgets s))
    then insert_filteredWidgets widget ;;
         handleViewportWidget (qobject_cast tk "QAbstractScrollArea" widget)
    else mret tt).

Definition track : M unit :=
  s ← get;
  releaseMouseForWidgets (_mouseOver s) ;;
  updateWidgetsUnderCursor ;;
  s ← get;
  for_ (_prevMouseOver s) (λ widget,
    s ← get;
    if negb (contains (_mouseOver s) widget) then sendLeaveEvent widget
    else mret tt) ;;
  s ← get;
  for_ (_mouseOver s) (λ widget,
    s ← get;
    if negb (contains (_prevMouseOver s) widget) then sendEnterEvent widget
    else mret tt) ;;
  handleMouseGrab ;;
  s ← get;
  set_prevMouseOver (_mouseOver s) ;;
  filterViewportWidgets.

Definition eventFilter (obj : QObject) (event : QEvent) : M bool :=
  (if decide (type event = MouseMove) then track
   else if decide (type event = MouseButtonRelease) then
     topWidget ← widgetAtCursor;
     match topWidget with
     | Some w =>
         match qobject_cast tk "QAbstractButton" w with
         | Some b =>
             if negb (isDown tk b) then sendReleaseEvent w (button event)
             else mret tt
         | None => mret tt
         end
     | None => mret tt
     end
   else mret tt) ;;
  mret (QObject_eventFilter obj event).

End Code.

(** The filter at work: one toolkit snapshot per filtered event. [step] is
    the state an event leaves, [returns] whether the filter returned from
    it. A run filters its events in turn and stops at the first one the
    filter does not return from, in the state that event left. *)
Definition Input : Type := (Toolkit * QObject * QEvent)%type.

Definition step (σ : State) (i : Input) : State :=
  let '(tk, obj, event) := i in (eventFilter tk obj event σ).1.2.

Definition returns (σ : State) (i : Input) : bool :=
  let '(tk, obj, event) := i in
  match (eventFilter tk obj event σ).1.1 with Some _ => true | None => false end.

Fixpoint steps (σ : State) (inputs : list Input) : State :=
  match inputs with
  | [] => σ
  | i :: rest => if returns σ i then steps (step σ i) rest else step σ i
  end.

End MouseTracking.

(** ** What a mouse-move does, phase by phase *)

Module Phases.
Import Qt MouseTracking.

Section Phases.
Variable tk : Toolkit.

(** The widget the hit test finds, when it is a descendant of [parent]. *)
Definition underCursor (parent : QObject) : list QObject :=
  match widgetAt tk (cursor_pos tk) with
  | Some w => if contains (findChildren tk parent) w then [w] else []
  | None => []
  end.

Definition releases (old : list QObject) : list Op := ReleaseMouse <$> old.

Definition recompute (parent : QObject) : list Op :=
  [ Set_widgets (findChildren tk parent);
    WidgetAt (cursor_pos tk);
    Set_mouseOver (underCursor parent) ].

Definition leaves (prev new : list QObject) : list Op :=
  flat_map (λ w, if negb (contains new w) then [SendEvent w (Event Leave)] else [])
           prev.

Definition enters (prev new : list QObject) : list Op :=
  flat_map (λ w, if negb (contains prev w) then [SendEvent w (Event Enter)] else [])
           new.

(** A control at rest: a push button that is not pressed, a combo box
    whose popup is not shown, a slider or scroll bar that is not dragged. *)
Definition atRest (w : QObject) : bool :=
  inherits tk w "QPushButton" && negb (isDown tk w)
  || inherits tk w "QComboBox" && negb (view_isVisible tk w)
  || inherits tk w "QSlider" && negb (isSliderDown tk w)
  || inherits tk w "QScrollBar" && negb (isSliderDown tk w).

Definition grabTarget : option QObject :=
  match widgetAt tk (cursor_pos tk) with
  | Some w => if atRest w then activeWindow tk else Some w
  | None => activeWindow tk
  end.

(** Is there a widget for [grabMouse] to be called on? *)
Definition hasReceiver : bool :=
  match grabTarget with Some _ => true | None => false end.

(** The hit test of [handleMouseGrab] and, when the pointer it arrives at is
    a widget, the [grabMouse] call on it. *)
Definition grab : list Op :=
  WidgetAt (cursor_pos tk)
  :: match grabTarget with Some g => [GrabMouse g] | None => [] end.

(** The phases up to and including the grab. *)
Definition upToGrab (s : t) : list Op :=
  let new := underCursor (parent s) in
  releases (_mouseOver s) ++ recompute (parent s)
    ++ leaves (_prevMouseOver s) new ++ enters (_prevMouseOver s) new
    ++ grab.

(** The six phases from releasing the old grab to replacing the previous
    set, for a tracker with fields [s]. *)
Definition sixPhases (s : t) : list Op :=
  let new := underCursor (parent s) in
  releases (_mouseOver s) ++ recompute (parent s)
    ++ leaves (_prevMouseOver s) new ++ enters (_prevMouseOver s) new
    ++ grab ++ [Set_prevMouseOver new].

(** What a MouseButtonRelease makes the filter post, if anything. *)
Definition posted (event : QEvent) : list Op :=
  match widgetAt tk (cursor_pos tk) with
  | Some w =>
      if inherits tk w "QAbstractButton" && negb (isDown tk w)
      then [PostEvent w (MouseEvent MouseButtonRelease (cursor_pos tk)
                           (button event) (button event) NoModifier)]
      else []
  | None => []
  end.

(** The state at the [grabMouse] call: the set is recomputed, the previous
    set not yet replaced. *)
Definition atGrab (σ : State) : State :=
  let s := this σ in
  {| this := {| parent := parent s;
                _prevMouseOver := _prevMouseOver s;
                _mouseOver := underCursor (parent s);
                _filteredWidgets := _filteredWidgets s;
                _widgets := findChildren tk (parent s) |};
     mouseMoveEvent := mouseMoveEvent σ |}.

(** The state in which the viewport pass starts. *)
Definition tracked (σ : State) : State :=
  let s := this σ in
  {| this := {| parent := parent s;
                _prevMouseOver := underCursor (parent s);
                _mouseOver := underCursor (parent s);
                _filteredWidgets := _filteredWidgets s;
                _widgets := findChildren tk (parent s) |};
     mouseMoveEvent := mouseMoveEvent σ |}.

(** One turn of the loop of [filterViewportWidgets]. *)
Definition viewportTurn (widget : QObject) : M unit :=
  s ← get;
  if inherits tk widget "QAbstractScrollArea"
     && negb (bool_decide (widget ∈ _filteredWidgets s))
  then insert_filteredWidgets widget ;;
       handleViewportWidget (qobject_cast tk "QAbstractScrollArea" widget)
  else mret tt.

(** The widgets a viewport pass over [ws] wraps: the scroll areas among
    [ws] that were not in the filtered set. *)
Definition wraps (filtered : gset QObject) (ws : list QObject) (w : QObject)
    : bool :=
  bool_decide (w ∈ ws) && inherits tk w "QAbstractScrollArea"
  && negb (bool_decide (w ∈ filtered)).

(** The operations of a viewport pass started in [σ] over [ws]. *)
Definition viewportOp (σ : State) (ws : list QObject) (o : Op) : Prop :=
  match o with
  | Insert_filteredWidgets w =>
      wraps (_filteredWidgets (this σ)) ws w = true
  | Set_mouseMoveEvent w h =>
      wraps (_filteredWidgets (this σ)) ws w = true
      ∧ h = CallThenIgnore (handlerOf σ w)
  | _ => False
  end.
End Phases.

(** The receivers of the [grabMouse] calls of a trace. *)
Definition grabMouseCalls (ops : list Op) : list QObject :=
  omap (λ o, match o with GrabMouse r => Some r | _ => None end) ops.

(** What can follow the grab in a move: the replacement of the previous set
    and the operations of the viewport pass. *)
Definition afterGrabOp (o : Op) : Prop :=
  match o with
  | Set_prevMouseOver _ | Insert_filteredWidgets _ | Set_mouseMoveEvent _ _ => True
  | _ => False
  end.

(** Calls into the toolkit, and writes to the tracker's own fields. *)
Definition toolkitCall (o : Op) : Prop :=
  match o with
  | InstallEventFilter _ _ | WidgetAt _ | SendEvent _ _ | PostEvent _ _
  | GrabMouse _ | ReleaseMouse _ => True
  | _ => False
  end.

Definition ownField (o : Op) : Prop :=
  match o with
  | Set_widgets _ | Set_mouseOver _ | Set_prevMouseOver _
  | Insert_filteredWidgets _ => True
  | _ => False
  end.

End Phases.

(** ** A small application to run the filters on

    A window [9] holds the tracked widget [1], whose descendants are a push
    button [2], a slider [3] and a list view [4] (a scroll area). *)

Module Demo.
Import Qt MouseTracking.

Definition classes (w : QObject) : list string :=
  match w with
  | 1 => ["QWidget"; "QObject"]
  | 2 => ["QPushButton"; "QAbstractButton"; "QWidget"; "QObject"]
  | 3 => ["QSlider"; "QAbstractSlider"; "QWidget"; "QObject"]
  | 4 => ["QListView"; "QAbstractItemView"; "QAbstractScrollArea"; "QFrame";
          "QWidget"; "QObject"]
  | 9 => ["QMainWindow"; "QWidget"; "QObject"]
  | _ => []
  end.

(** The application with the cursor over [top]; the only slot any object
    declares is [on_event], taking a widget and an event, on object [9]. *)
Definition app (top : option QObject) : Toolkit :=
  {| inherits := λ w c, bool_decide (c ∈ classes w);
     indexOfSlot := λ o sig,
       if bool_decide (o = 9 ∧ sig = "on_event(QWidget*,QEvent*)") then 5%Z
       else (-1)%Z;
     normalizedSignature := λ sig,
       if bool_decide (sig = "on_event(QWidget*, QEvent*)")
       then "on_event(QWidget*,QEvent*)" else sig;
     cursor_pos := (10, 20)%Z;
     widgetAt := λ _, top;
     activeWindow := Some 9;
     findChildren := λ w, match w with 1 => [2; 3; 4] | _ => [] end;
     isDown := λ _, false;
     view_isVisible := λ _, false;
     isSliderDown := λ _, false |}.

(** The same application when it has no active window. *)
Definition inactive (top : option QObject) : Toolkit :=
  {| inherits := inherits (app top);
     indexOfSlot := indexOfSlot (app top);
     normalizedSignature := normalizedSignature (app top);
     cursor_pos := cursor_pos (app top);
     widgetAt := widgetAt (app top);
     activeWindow := None;
     findChildren := findChildren (app top);
     isDown := isDown (app top);
     view_isVisible := view_isVisible (app top);
     isSliderDown := isSliderDown (app top) |}.

(** A tracker on [1] that has seen nothing yet, and one that saw the
    cursor over the push button on the previous move. *)
Definition fresh : State :=
  {| this := {| parent := 1; _prevMouseOver := []; _mouseOver := [];
                _filteredWidgets := ∅; _widgets := [] |};
     mouseMoveEvent := ∅ |}.

Definition overButton : State :=
  {| this := {| parent := 1; _prevMouseOver := [2]; _mouseOver := [2];
                _filteredWidgets := {[4]}; _widgets := [2; 3; 4] |};
     mouseMoveEvent := {[4 := CallThenIgnore ClassHandler]} |}.

Definition move : QEvent := MouseEvent MouseMove (3, 4)%Z NoButton NoButton NoModifier.
Definition release : QEvent := MouseEvent MouseButtonRelease (3, 4)%Z 1 NoButton NoModifier.
Definition keyPress : QEvent := Event 6.

End Demo.

(** ** Reading traces, and delivering to a handler *)

Module Observe.
Import Qt MouseTracking.

(** The receivers of the [releaseMouse] calls of a trace, in order. *)
Definition releaseMouseCalls (ops : list Op) : list QObject :=
  omap (λ o, match o with ReleaseMouse w => Some w | _ => None end) ops.

(** The events a trace sends, with their receivers, in order. *)
Definition sendEventCalls (ops : list Op) : list (QObject * QEvent) :=
  omap (λ o, match o with SendEvent w e => Some (w, e) | _ => None end) ops.

(** Is the event a mouse-move? *)
Definition isMove (i : Input) : bool := bool_decide (type i.2 = MouseMove).

(** An event the filter returns from: anything but a mouse-move whose
    [grabMouse] call would go through a null pointer. *)
Definition safe (i : Input) : bool := negb (isMove i) || Phases.hasReceiver i.1.1.

(** The under-cursor set the last mouse-move of [inputs] computed, for a
    tracker on [parent]: the widget hit then, when it was a descendant of
    [parent]; empty when there was no mouse-move. *)
Definition lastUnderCursor (parent : QObject) (inputs : list Input)
    : list QObject :=
  foldl (λ set i, if isMove i then Phases.underCursor i.1.1 parent else set)
        [] inputs.

(** Delivering a mouse-move to a handler. [classHandler] is what the
    widget's class does to the event's accepted flag; the result is how many
    times the class's handler ran and the accepted flag afterwards. The
    wrapper calls the handler it captured and then ignores the event. *)
Fixpoint deliver (classHandler : bool → bool) (h : Handler) (accepted : bool)
    : nat * bool :=
  match h with
  | ClassHandler => (1, classHandler accepted)
  | CallThenIgnore originalMouseMoveEvent =>
      let '(n, _) := deliver classHandler originalMouseMoveEvent accepted in
      (n, false)
  end.

(** The tracker as its constructor leaves it, over widgets with [handlers]. *)
Definition constructed (parent : QObject) (handlers : gmap QObject Handler)
    : State :=
  {| this := {| parent := parent; _prevMouseOver := []; _mouseOver := [];
                _filteredWidgets := ∅; _widgets := [] |};
     mouseMoveEvent := handlers |}.

(** Relative to [σ0], every handler of [σ] is the one it was, wrapped once
    if and only if the widget is in the filtered set. *)
Definition wrappedOnce (σ0 σ : State) : Prop :=
  ∀ w, handlerOf σ w
       = if bool_decide (w ∈ _filteredWidgets (this σ))
         then CallThenIgnore (handlerOf σ0 w) else handlerOf σ0 w.

End Observe.

(** * Properties *)

(** ** The pattern of [formatEventName] *)

Section RegexFacts.
Import Regex.

Lemma suffix_refl s : Str.suffix s s.
Proof. constructor. Qed.

Lemma suffix_trans s3 s2 s1 :
  Str.suffix s3 s2 → Str.suffix s2 s1 → Str.suffix s3 s1.
Proof. intros H32 H21. induction H21; [done|]. by constructor. Qed.

Lemma suffix_cons c s : Str.suffix s (String c s).
Proof. do 2 constructor. Qed.

Lemma mem_suffix c s' s : Str.suffix (String c s') s → Str.mem c s = true.
Proof.
  induction 1 as [|d s1 _ IH]; simpl.
  - by rewrite Ascii.eqb_refl.
  - rewrite IH. by destruct (Ascii.eqb c d).
Qed.

(** A successful run hands some suffix of the input to its continuation. *)
Lemma run_continues {R} (r : regex) :
  ∀ pos s caps (k : cont) (x : R),
    run r pos s caps k = Some x →
    ∃ pos' s' caps', Str.suffix s' s ∧ k pos' s' caps' = Some x.
Proof.
  induction r as [| | |p|r1 IH1 r2 IH2|r1 IH1|r1 IH1|r1 IH1|n r1 IH1];
    intros pos s caps k x; simpl.
  - intros Hk. exists pos, s, caps. eauto using suffix_refl.
  - destruct (decide (pos = 0%nat)); [|done].
    intros Hk. exists pos, s, caps. eauto using suffix_refl.
  - destruct s; [|done]. intros Hk. exists pos, "", caps. eauto using suffix_refl.
  - destruct s as [|c s']; [done|]. destruct (p c); [|done].
    intros Hk. exists (S pos), s', caps. eauto using suffix_cons.
  - intros Hk. apply IH1 in Hk as (pos1 & s1 & caps1 & Hs1 & Hk).
    apply IH2 in Hk as (pos2 & s2 & caps2 & Hs2 & Hk).
    exists pos2, s2, caps2. eauto using suffix_trans.
  - generalize (String.length s). intros fuel. revert pos s caps.
    induction fuel as [|fuel IHf]; intros pos s caps.
    + intros Hk. exists pos, s, caps. eauto using suffix_refl.
    + match goal with |- context [run r1 pos s caps ?k'] =>
        destruct (run r1 pos s caps k') as [y|] eqn:E end.
      * intros [= ->]. apply IH1 in E as (pos1 & s1 & caps1 & Hs1 & E).
        destruct (decide (pos < pos1)%nat); [|done].
        apply IHf in E as (pos2 & s2 & caps2 & Hs2 & E).
        exists pos2, s2, caps2. eauto using suffix_trans.
      * intros Hk. exists pos, s, caps. eauto using suffix_refl.
  - destruct (run r1 pos s caps k) as [y|] eqn:E.
    + intros [= ->]. by apply IH1 in E.
    + intros Hk. exists pos, s, caps. eauto using suffix_refl.
  - apply IH1.
  - intros Hk. apply IH1 in Hk as (pos1 & s1 & caps1 & Hs1 & Hk). eauto 10.
Qed.

Lemma run_Cat {R} r1 r2 pos s caps (k : cont (R:=R)) :
  run (Cat r1 r2) pos s caps k
  = run r1 pos s caps (λ pos' s' caps', run r2 pos' s' caps' k).
Proof. reflexivity. Qed.

Lemma run_Chr_inv {R} p pos s caps (k : cont) (x : R) :
  run (Chr p) pos s caps k = Some x → ∃ c s', s = String c s' ∧ p c = true.
Proof.
  simpl. destruct s as [|c s']; [done|]. destruct (p c) eqn:E; [|done]. eauto.
Qed.

(** Whatever the pattern matches has a dot in it. *)
Lemma regexPattern_needs_dot s m :
  regex_match s EventFactoryFilter.regexPattern = Some m → Str.mem "." s = true.
Proof.
  unfold regex_match, EventFactoryFilter.regexPattern. rewrite run_Cat.
  intros Hk. apply run_continues in Hk as (pos0 & s0 & caps0 & Hs0 & Hk).
  rewrite run_Cat in Hk.
  apply run_continues in Hk as (pos1 & s1 & caps1 & Hs1 & Hk).
  rewrite run_Cat in Hk. apply run_Chr_inv in Hk as (c & s2 & -> & Hc).
  apply Ascii.eqb_eq in Hc as <-.
  eapply mem_suffix, suffix_trans; [exact Hs1|exact Hs0].
Qed.

Lemma string_of_uint_no_dot d : Str.mem "." (NilEmpty.string_of_uint d) = false.
Proof. induction d; simpl; done. Qed.

(** The decimal rendering of an integer has none. *)
Lemma number_no_dot n : Str.mem "." (Str.number n) = false.
Proof.
  unfold Str.number. destruct (Z.to_int n) as [d|d]; simpl.
  - destruct d; try apply (string_of_uint_no_dot (_ _)); done.
  - destruct d; try apply (string_of_uint_no_dot (_ _)); done.
Qed.

(** What the pattern was written for: the qualified name of an event type
    gives the name of the widget method that handles it. *)
Example pattern_on_a_qualified_name :
  EventFactoryFilter.formattedName "on_"
    <$> regex_match "QEvent.MouseButtonPress" EventFactoryFilter.regexPattern
  = Some "on_mousePressEvent".
Proof. vm_compute. reflexivity. Qed.

Example pattern_on_a_number :
  regex_match "2" EventFactoryFilter.regexPattern = None
  ∧ EventFactoryFilter.formatEventName 2 "on_" = "on_event".
Proof. vm_compute. split; reflexivity. Qed.

Lemma regex_match_number n :
  regex_match (Str.number n) EventFactoryFilter.regexPattern = None.
Proof.
  destruct (regex_match _ _) as [m|] eqn:E; [|done].
  apply regexPattern_needs_dot in E. by rewrite number_no_dot in E.
Qed.
End RegexFacts.

(** ** Running member functions *)

Section MonadFacts.
Import Qt MouseTracking.

Lemma bind_run {A B} (c : M A) (f : A → M B) σ x σ1 ops1 :
  c σ = (Some x, σ1, ops1) →
  (c ≫= f) σ = (let '(y, σ2, ops2) := f x σ1 in (y, σ2, ops1 ++ ops2)).
Proof. unfold mbind, M_bind. by intros ->. Qed.

Lemma bind_stop {A B} (c : M A) (f : A → M B) σ σ1 ops1 :
  c σ = (None, σ1, ops1) → (c ≫= f) σ = (None, σ1, ops1).
Proof. unfold mbind, M_bind. by intros ->. Qed.

Lemma for_stateless {A} (l : list A) (body : A → M unit) (g : A → list Op) σ :
  (∀ x, body x σ = (Some tt, σ, g x)) →
  for_ l body σ = (Some tt, σ, flat_map g l).
Proof.
  intros Hbody. induction l as [|x l IH]; [done|].
  simpl. erewrite bind_run by apply Hbody. by rewrite IH.
Qed.
End MonadFacts.

(** ** The phases of [track] *)

Section TrackFacts.
Import Qt MouseTracking Phases.
Variable tk : Toolkit.

Lemma shouldCaptureMouse_atRest w :
  shouldCaptureMouse tk w = negb (atRest tk w).
Proof.
  unfold shouldCaptureMouse, atRest, widgetConditions, firstCondition.
  destruct (inherits tk w "QPushButton" && _); [done|].
  destruct (inherits tk w "QComboBox" && _); [done|].
  destruct (inherits tk w "QSlider" && _); [done|].
  by destruct (inherits tk w "QScrollBar" && _).
Qed.

Lemma releaseMouseForWidgets_run l σ :
  releaseMouseForWidgets l σ = (Some tt, σ, releases l).
Proof.
  unfold releaseMouseForWidgets, releases.
  rewrite (for_stateless l _ (λ w, [ReleaseMouse w])) by reflexivity.
  reflexivity.
Qed.

Lemma updateWidgetsUnderCursor_run σ :
  updateWidgetsUnderCursor tk σ =
    (Some tt,
     {| this := {| parent := parent (this σ);
                   _prevMouseOver := _prevMouseOver (this σ);
                   _mouseOver := underCursor tk (parent (this σ));
                   _filteredWidgets := _filteredWidgets (this σ);
                   _widgets := findChildren tk (parent (this σ)) |};
        mouseMoveEvent := mouseMoveEvent σ |},
     recompute tk (parent (this σ))).
Proof.
  unfold updateWidgetsUnderCursor, recompute, underCursor.
  destruct (widgetAt tk (cursor_pos tk)) as [w|] eqn:E;
    cbv [mbind M_bind getChildWidgets widgetAtCursor get call set_widgets
         set_mouseOver update mret M_ret]; simpl; rewrite E; reflexivity.
Qed.

(** The pointer [grabMouse] is called through is [grabTarget]. *)
Lemma handleMouseGrab_run σ :
  handleMouseGrab tk σ
  = (match grabTarget tk with Some _ => Some tt | None => None end, σ, grab tk).
Proof.
  unfold handleMouseGrab, grab, grabTarget.
  cbv [mbind M_bind widgetAtCursor call mret M_ret].
  destruct (widgetAt tk (cursor_pos tk)) as [w|].
  - rewrite shouldCaptureMouse_atRest.
    destruct (atRest tk w); [|done]. by destruct (activeWindow tk).
  - by destruct (activeWindow tk).
Qed.

Lemma leave_loop_run prev σ :
  for_ prev (λ widget,
    s ← get;
    if negb (contains (_mouseOver s) widget) then sendLeaveEvent widget
    else mret tt) σ
  = (Some tt, σ, leaves prev (_mouseOver (this σ))).
Proof.
  apply for_stateless. intros w.
  cbv [mbind M_bind get sendLeaveEvent call mret M_ret].
  by destruct (negb _).
Qed.

Lemma enter_loop_run new σ :
  for_ new (λ widget,
    s ← get;
    if negb (contains (_prevMouseOver s) widget) then sendEnterEvent widget
    else mret tt) σ
  = (Some tt, σ, enters (_prevMouseOver (this σ)) new).
Proof.
  apply for_stateless. intros w.
  cbv [mbind M_bind get sendEnterEvent call mret M_ret].
  by destruct (negb _).
Qed.

Lemma filterViewportWidgets_unfold σ :
  filterViewportWidgets tk σ = for_ (_widgets (this σ)) (viewportTurn tk) σ.
Proof.
  unfold filterViewportWidgets. erewrite bind_run by reflexivity.
  by destruct (for_ _ _ σ) as [[r σ'] ops].
Qed.

Lemma sixPhases_upToGrab s :
  sixPhases tk s = upToGrab tk s ++ [Set_prevMouseOver (underCursor tk (parent s))].
Proof. unfold sixPhases, upToGrab. by rewrite <- !app_assoc. Qed.

(** A mouse-move whose grab has a receiver, phase by phase. *)
Lemma track_run σ g :
  grabTarget tk = Some g →
  track tk σ =
    let '(r, σ', viewport) :=
      for_ (findChildren tk (parent (this σ))) (viewportTurn tk) (tracked tk σ) in
    (r, σ', sixPhases tk (this σ) ++ viewport).
Proof.
  intros Hg. unfold track.
  erewrite bind_run by reflexivity.
  erewrite bind_run by apply releaseMouseForWidgets_run.
  erewrite bind_run by apply updateWidgetsUnderCursor_run.
  erewrite bind_run by reflexivity.
  erewrite bind_run by apply leave_loop_run.
  erewrite bind_run by reflexivity.
  erewrite bind_run by apply enter_loop_run.
  erewrite bind_run by (rewrite handleMouseGrab_run, Hg; reflexivity).
  erewrite bind_run by reflexivity.
  erewrite bind_run by reflexivity.
  cbn [this _mouseOver _prevMouseOver parent _filteredWidgets _widgets
       mouseMoveEvent].
  rewrite filterViewportWidgets_unfold. unfold tracked, sixPhases.
  cbn [this _widgets].
  destruct (for_ _ _ _) as [[r σ'] viewport].
  cbn [app]. by rewrite <- !app_assoc.
Qed.

(** A mouse-move whose [grabMouse] call goes through a null pointer stops
    there. *)
Lemma track_stop σ :
  grabTarget tk = None →
  track tk σ = (None, atGrab tk σ, upToGrab tk (this σ)).
Proof.
  intros Hg. unfold track.
  erewrite bind_run by reflexivity.
  erewrite bind_run by apply releaseMouseForWidgets_run.
  erewrite bind_run by apply updateWidgetsUnderCursor_run.
  erewrite bind_run by reflexivity.
  erewrite bind_run by apply leave_loop_run.
  erewrite bind_run by reflexivity.
  erewrite bind_run by apply enter_loop_run.
  erewrite bind_stop by (rewrite handleMouseGrab_run, Hg; reflexivity).
  cbn [this _mouseOver _prevMouseOver parent _filteredWidgets _widgets
       mouseMoveEvent].
  unfold atGrab, upToGrab. cbn [app]. by rewrite <- ?app_assoc.
Qed.
End TrackFacts.

(** ** The viewport pass *)

Section ViewportFacts.
Import Qt MouseTracking Phases.
Variable tk : Toolkit.

Lemma viewportTurn_run widget σ :
  viewportTurn tk widget σ =
    if inherits tk widget "QAbstractScrollArea"
       && negb (bool_decide (widget ∈ _filteredWidgets (this σ)))
    then (Some tt,
          {| this := {| parent := parent (this σ);
                        _prevMouseOver := _prevMouseOver (this σ);
                        _mouseOver := _mouseOver (this σ);
                        _filteredWidgets := {[widget]} ∪ _filteredWidgets (this σ);
                        _widgets := _widgets (this σ) |};
             mouseMoveEvent :=
               <[widget := CallThenIgnore (handlerOf σ widget)]> (mouseMoveEvent σ) |},
          [ Insert_filteredWidgets widget;
            Set_mouseMoveEvent widget (CallThenIgnore (handlerOf σ widget)) ])
    else (Some tt, σ, []).
Proof.
  unfold viewportTurn. erewrite bind_run by reflexivity.
  unfold qobject_cast.
  destruct (inherits tk widget "QAbstractScrollArea"); [|by destruct σ].
  destruct (bool_decide _); [by destruct σ|]. reflexivity.
Qed.

Local Ltac sets :=
  rewrite ?elem_of_cons, ?elem_of_union, ?elem_of_singleton in *;
  intuition (subst; try congruence; auto).

Lemma wraps_cons_ne filtered x ws w :
  w ≠ x → wraps tk filtered (x :: ws) w = wraps tk filtered ws w.
Proof.
  intros Hne. unfold wraps.
  by rewrite (bool_decide_ext (w ∈ x :: ws) (w ∈ ws)) by sets.
Qed.

Lemma wraps_cons_skip filtered x ws w :
  inherits tk x "QAbstractScrollArea"
    && negb (bool_decide (x ∈ filtered)) = false →
  wraps tk filtered ws w = true → wraps tk filtered (x :: ws) w = true.
Proof.
  unfold wraps. intros Hx Hw.
  apply andb_true_iff in Hw as [Hw Hf]. apply andb_true_iff in Hw as [Hw Hi].
  rewrite Hi, Hf, !andb_true_r. apply bool_decide_eq_true.
  apply bool_decide_eq_true in Hw. sets.
Qed.

Lemma viewportOp_cons_skip σ x ws o :
  inherits tk x "QAbstractScrollArea"
    && negb (bool_decide (x ∈ _filteredWidgets (this σ))) = false →
  viewportOp tk σ ws o → viewportOp tk σ (x :: ws) o.
Proof.
  intros Hx. destruct o; simpl; try done.
  - by apply wraps_cons_skip.
  - intros [? ?]. split; [by apply wraps_cons_skip|done].
Qed.

(** What a pass over [ws] leaves behind, and what it does on the way. *)
Lemma viewport_loop ws :
  ∀ σ, ∃ σ' ops,
    for_ ws (viewportTurn tk) σ = (Some tt, σ', ops)
    ∧ parent (this σ') = parent (this σ)
    ∧ _prevMouseOver (this σ') = _prevMouseOver (this σ)
    ∧ _mouseOver (this σ') = _mouseOver (this σ)
    ∧ _widgets (this σ') = _widgets (this σ)
    ∧ (∀ w, w ∈ _filteredWidgets (this σ') ↔
            w ∈ _filteredWidgets (this σ)
            ∨ (w ∈ ws ∧ inherits tk w "QAbstractScrollArea" = true))
    ∧ (∀ w, handlerOf σ' w =
            if wraps tk (_filteredWidgets (this σ)) ws w
            then CallThenIgnore (handlerOf σ w)
            else handlerOf σ w)
    ∧ Forall (viewportOp tk σ ws) ops
    ∧ (∀ w, wraps tk (_filteredWidgets (this σ)) ws w = true →
            Insert_filteredWidgets w ∈ ops
            ∧ Set_mouseMoveEvent w (CallThenIgnore (handlerOf σ w)) ∈ ops).
Proof.
  induction ws as [|x ws IH]; intros σ.
  - exists σ, []. split; [done|]. do 4 (split; [done|]).
    split; [|split; [done|split; [done|]]].
    + intros w. split; [by left|].
      intros [|[Hw _]]; [done|]. by apply elem_of_nil in Hw.
    + intros w Hw. unfold wraps in Hw.
      rewrite bool_decide_eq_false_2 in Hw by (by intros ?%elem_of_nil). done.
  - simpl. pose proof (viewportTurn_run x σ) as Hturn.
    destruct (inherits tk x "QAbstractScrollArea"
              && negb (bool_decide (x ∈ _filteredWidgets (this σ)))) eqn:Ex;
      erewrite bind_run by exact Hturn.
    + (* [x] is wrapped now *)
      apply andb_true_iff in Ex as [Ei Ef].
      apply negb_true_iff, bool_decide_eq_false in Ef.
      match goal with |- context [for_ ws _ ?σx] =>
        destruct (IH σx)
          as (σ' & ops & -> & Hp & Hprev & Hcur & Hws & Hf & Hh & Hops & Hall)
      end.
      simpl in *. eexists _, _. split; [reflexivity|].
      do 4 (split; [done|]).
      assert (Hmono : ∀ w,
        wraps tk ({[x]} ∪ _filteredWidgets (this σ)) ws w = true ↔
        w ≠ x ∧ wraps tk (_filteredWidgets (this σ)) (x :: ws) w = true).
      { intros w. unfold wraps. rewrite !andb_true_iff, !negb_true_iff.
        rewrite !bool_decide_eq_true, !bool_decide_eq_false.
        split.
        - intros [[Hw Hi] Hnf]. assert (w ≠ x) by (intros ->; apply Hnf; sets).
          repeat split; [done|sets|done|]. intros ?. apply Hnf. sets.
        - intros (Hne & [Hw Hi] & Hnf). repeat split; [sets|done|sets]. }
      assert (Hx : wraps tk (_filteredWidgets (this σ)) (x :: ws) x = true).
      { unfold wraps. rewrite Ei, (bool_decide_eq_true_2 (x ∈ x :: ws)) by sets.
        by rewrite (bool_decide_eq_false_2 (x ∈ _filteredWidgets (this σ))). }
      split; [|split; [|split]].
      * intros w. rewrite Hf. sets.
      * intros w. rewrite Hh. unfold handlerOf. simpl.
        destruct (decide (w = x)) as [->|Hne].
        -- rewrite Hx. destruct (wraps _ _ ws x) eqn:E.
           { apply Hmono in E as [? _]. done. }
           by rewrite lookup_insert_eq.
        -- rewrite lookup_insert_ne by done.
           destruct (wraps tk ({[x]} ∪ _) ws w) eqn:E.
           { apply Hmono in E as [_ ->]. done. }
           destruct (wraps tk _ (x :: ws) w) eqn:E'; [|done].
           assert (wraps tk ({[x]} ∪ _filteredWidgets (this σ)) ws w = true)
             by (by apply Hmono).
           congruence.
      * apply Forall_cons_2; [exact Hx|]. apply Forall_cons_2; [done|].
        eapply Forall_impl; [exact Hops|]. intros o. unfold viewportOp.
        destruct o; try done.
        -- intros Hw. by apply Hmono in Hw as [_ ?].
        -- intros [Hw ->]. apply Hmono in Hw as [Hne Hw]. split; [done|].
           unfold handlerOf. simpl. by rewrite lookup_insert_ne.
      * intros w Hw. destruct (decide (w = x)) as [->|Hne].
        { split; [by left|]. right; by left. }
        destruct (Hall w) as [Hi Hs]; [by apply Hmono|].
        split; [by do 2 right|]. do 2 right. revert Hs.
        unfold handlerOf. simpl. by rewrite lookup_insert_ne.
    + (* [x] is left alone *)
      destruct (IH σ)
        as (σ' & ops & -> & Hp & Hprev & Hcur & Hws & Hf & Hh & Hops & Hall).
      exists σ', ops. split; [done|]. do 4 (split; [done|]).
      assert (Hskip : ∀ w, wraps tk (_filteredWidgets (this σ)) (x :: ws) w
                           = wraps tk (_filteredWidgets (this σ)) ws w).
      { intros w. destruct (decide (w = x)) as [->|Hne]; [|by apply wraps_cons_ne].
        unfold wraps. rewrite <- !andb_assoc, Ex, !andb_false_r. done. }
      split; [|split; [|split]].
      * intros w. rewrite Hf. split; [sets|].
        intros [?|[Hw Hi]]; [by left|].
        apply elem_of_cons in Hw as [->|Hw]; [|by right].
        rewrite Hi in Ex. simpl in Ex.
        apply negb_false_iff, bool_decide_eq_true in Ex. by left.
      * intros w. by rewrite Hh, Hskip.
      * eapply Forall_impl; [exact Hops|]. intros o. by apply viewportOp_cons_skip.
      * intros w Hw. apply Hall. by rewrite <- Hskip.
Qed.
End ViewportFacts.

(** ** [MouseTracking::eventFilter], by event type *)

Section FilterFacts.
Import Qt MouseTracking Phases Observe.
Variable tk : Toolkit.

Lemma eventFilter_release obj event σ :
  type event = MouseButtonRelease →
  eventFilter tk obj event σ
  = (Some false, σ, WidgetAt (cursor_pos tk) :: posted tk event).
Proof.
  intros Ht. unfold eventFilter, posted. rewrite Ht.
  destruct (decide (MouseButtonRelease = MouseMove)) as [E|_]; [done|].
  destruct (decide (MouseButtonRelease = MouseButtonRelease)) as [_|]; [|done].
  cbv [mbind M_bind widgetAtCursor call mret M_ret sendReleaseEvent qobject_cast].
  destruct (widgetAt tk (cursor_pos tk)) as [w|]; [|done].
  destruct (inherits tk w "QAbstractButton"); [|done].
  by destruct (isDown tk w).
Qed.

Lemma eventFilter_other obj event σ :
  type event ≠ MouseMove → type event ≠ MouseButtonRelease →
  eventFilter tk obj event σ = (Some false, σ, []).
Proof.
  intros Hm Hr. unfold eventFilter.
  destruct (decide (type event = MouseMove)); [done|].
  by destruct (decide (type event = MouseButtonRelease)).
Qed.

(** A mouse-move whose grab has a receiver. *)
Lemma eventFilter_move obj event σ g :
  type event = MouseMove →
  grabTarget tk = Some g →
  ∃ σ' viewport,
    eventFilter tk obj event σ
    = (Some false, σ', sixPhases tk (this σ) ++ viewport)
    ∧ parent (this σ') = parent (this σ)
    ∧ _prevMouseOver (this σ') = underCursor tk (parent (this σ))
    ∧ _mouseOver (this σ') = underCursor tk (parent (this σ))
    ∧ (∀ w, handlerOf σ' w =
            if wraps tk (_filteredWidgets (this σ))
                 (findChildren tk (parent (this σ))) w
            then CallThenIgnore (handlerOf σ w)
            else handlerOf σ w)
    ∧ Forall (viewportOp tk (tracked tk σ) (findChildren tk (parent (this σ))))
             viewport
    ∧ for_ (findChildren tk (parent (this σ))) (viewportTurn tk) (tracked tk σ)
      = (Some tt, σ', viewport)
    ∧ (∀ w, w ∈ _filteredWidgets (this σ') ↔
            w ∈ _filteredWidgets (this σ)
            ∨ (w ∈ findChildren tk (parent (this σ))
               ∧ inherits tk w "QAbstractScrollArea" = true))
    ∧ (∀ w, wraps tk (_filteredWidgets (this σ))
              (findChildren tk (parent (this σ))) w = true →
            Insert_filteredWidgets w ∈ viewport
            ∧ Set_mouseMoveEvent w (CallThenIgnore (handlerOf σ w)) ∈ viewport).
Proof.
  intros Ht Hg. unfold eventFilter.
  destruct (decide (type event = MouseMove)); [|done].
  destruct (viewport_loop tk (findChildren tk (parent (this σ))) (tracked tk σ))
    as (σ' & viewport & Hrun & Hp & Hprev & Hcur & _ & Hf & Hh & Hops & Hall).
  exists σ', viewport.
  erewrite bind_run by (rewrite (track_run tk σ g Hg), Hrun; reflexivity).
  cbv [mret M_ret QObject_eventFilter]. rewrite app_nil_r.
  split; [done|]. do 5 (split; [done|]). split; [done|]. split; [exact Hf|].
  exact Hall.
Qed.

(** A mouse-move whose [grabMouse] call goes through a null pointer. *)
Lemma eventFilter_move_stop obj event σ :
  type event = MouseMove →
  grabTarget tk = None →
  eventFilter tk obj event σ = (None, atGrab tk σ, upToGrab tk (this σ)).
Proof.
  intros Ht Hg. unfold eventFilter.
  destruct (decide (type event = MouseMove)); [|done].
  by erewrite bind_stop by (by apply track_stop).
Qed.

(** Either way, a move is the phases up to the grab and then at most the
    replacement of the previous set and the viewport pass. *)
Lemma eventFilter_move_trace obj event σ :
  type event = MouseMove →
  ∃ rest, (eventFilter tk obj event σ).2 = upToGrab tk (this σ) ++ rest
          ∧ Forall afterGrabOp rest.
Proof.
  intros Ht. destruct (grabTarget tk) as [g|] eqn:Hg.
  - destruct (eventFilter_move obj event σ g Ht Hg)
      as (σ' & viewport & -> & _ & _ & _ & _ & Hops & _).
    exists (Set_prevMouseOver (underCursor tk (parent (this σ))) :: viewport).
    cbn [snd]. split.
    + rewrite sixPhases_upToGrab. by rewrite <- app_assoc.
    + apply Forall_cons_2; [done|].
      eapply Forall_impl; [exact Hops|]. by intros [].
  - rewrite eventFilter_move_stop by done. exists []. by rewrite app_nil_r.
Qed.

Lemma underCursor_length p : length (underCursor tk p) ≤ 1.
Proof.
  unfold underCursor. destruct (widgetAt tk (cursor_pos tk)); [|simpl; lia].
  destruct (contains _ _); simpl; lia.
Qed.

Lemma elem_of_underCursor p w :
  w ∈ underCursor tk p ↔
  widgetAt tk (cursor_pos tk) = Some w ∧ w ∈ findChildren tk p.
Proof.
  unfold underCursor, contains.
  destruct (widgetAt tk (cursor_pos tk)) as [v|].
  - case_bool_decide as Hv.
    + rewrite list_elem_of_singleton. split; [by intros ->|]. by intros [[= ->] _].
    + rewrite elem_of_nil. split; [done|]. by intros [[= ->] ?].
  - rewrite elem_of_nil. split; [done|]. by intros [? _].
Qed.

Lemma elem_of_leaves prev new o :
  o ∈ leaves prev new ↔ ∃ w, o = SendEvent w (Event Leave) ∧ w ∈ prev ∧ w ∉ new.
Proof.
  unfold leaves, contains. rewrite list_elem_of_In, in_flat_map. split.
  - intros (w & Hw & Ho). apply list_elem_of_In in Hw.
    case_bool_decide; simpl in Ho; [done|].
    destruct Ho as [<-|[]]. eauto.
  - intros (w & -> & Hw & Hn). exists w. split; [by apply list_elem_of_In|].
    rewrite bool_decide_eq_false_2 by done. by left.
Qed.

Lemma elem_of_enters prev new o :
  o ∈ enters prev new ↔ ∃ w, o = SendEvent w (Event Enter) ∧ w ∈ new ∧ w ∉ prev.
Proof.
  unfold enters, contains. rewrite list_elem_of_In, in_flat_map. split.
  - intros (w & Hw & Ho). apply list_elem_of_In in Hw.
    case_bool_decide; simpl in Ho; [done|].
    destruct Ho as [<-|[]]. eauto.
  - intros (w & -> & Hw & Hn). exists w. split; [by apply list_elem_of_In|].
    rewrite bool_decide_eq_false_2 by done. by left.
Qed.

Lemma elem_of_grab o :
  o ∈ grab tk ↔
  o = WidgetAt (cursor_pos tk) ∨ ∃ g, grabTarget tk = Some g ∧ o = GrabMouse g.
Proof.
  unfold grab. rewrite elem_of_cons. destruct (grabTarget tk) as [g|].
  - rewrite list_elem_of_singleton. split; [intros [?|?]; eauto|].
    intros [?|(g' & [= <-] & ?)]; auto.
  - rewrite elem_of_nil. split; [intros [?|[]]; auto|].
    intros [?|(g' & [=] & _)]; auto.
Qed.

(** The events a mouse-move sends. *)
Lemma sendEvent_upToGrab s rest w e :
  Forall afterGrabOp rest →
  SendEvent w e ∈ upToGrab tk s ++ rest ↔
  (e = Event Leave ∧ w ∈ _prevMouseOver s ∧ w ∉ underCursor tk (parent s))
  ∨ (e = Event Enter ∧ w ∈ underCursor tk (parent s) ∧ w ∉ _prevMouseOver s).
Proof.
  intros Hv. unfold upToGrab, releases, recompute.
  rewrite <- !app_assoc.
  rewrite !elem_of_app, elem_of_leaves, elem_of_enters, list_elem_of_fmap,
    elem_of_grab.
  rewrite Forall_forall in Hv. split.
  - intros [(v & ? & _)|[Hr|[(v & [= -> ->] & ?)|[(v & [= -> ->] & ?)|[Hg|Hin]]]]];
      try done; eauto.
    + apply elem_of_cons in Hr as [?|Hr]; [done|].
      apply elem_of_cons in Hr as [?|Hr]; [done|].
      by apply list_elem_of_singleton in Hr.
    + by destruct Hg as [?|(g & _ & ?)].
    + by apply Hv in Hin.
  - intros [(-> & ? & ?)|(-> & ? & ?)].
    + right; right; left. eauto.
    + right; right; right; left. eauto.
Qed.

Lemma sendEvent_move obj event σ w e :
  type event = MouseMove →
  SendEvent w e ∈ (eventFilter tk obj event σ).2 ↔
  (e = Event Leave ∧ w ∈ _prevMouseOver (this σ)
   ∧ w ∉ underCursor tk (parent (this σ)))
  ∨ (e = Event Enter ∧ w ∈ underCursor tk (parent (this σ))
     ∧ w ∉ _prevMouseOver (this σ)).
Proof.
  intros Hm. destruct (eventFilter_move_trace obj event σ Hm) as (rest & -> & Hr).
  by apply sendEvent_upToGrab.
Qed.

(** The only write to [_mouseOver] in a move is the recomputed set. *)
Lemma set_mouseOver_move obj event σ l :
  type event = MouseMove →
  Set_mouseOver l ∈ (eventFilter tk obj event σ).2 →
  l = underCursor tk (parent (this σ)).
Proof.
  intros Hm. destruct (eventFilter_move_trace obj event σ Hm) as (rest & -> & Hv).
  unfold upToGrab, releases, recompute. rewrite <- !app_assoc.
  rewrite !elem_of_app, elem_of_leaves, elem_of_enters, list_elem_of_fmap,
    elem_of_grab.
  rewrite Forall_forall in Hv.
  intros [(v & ? & _)|[Hr|[(v & ? & _)|[(v & ? & _)|[Hg|Hin]]]]]; try done.
  - apply elem_of_cons in Hr as [?|Hr]; [done|].
    apply elem_of_cons in Hr as [?|Hr]; [done|].
    apply list_elem_of_singleton in Hr. by injection Hr.
  - by destruct Hg as [?|(g & _ & ?)].
  - by apply Hv in Hin.
Qed.

Lemma upToGrab_kinds s : Forall (λ o, toolkitCall o ∨ ownField o) (upToGrab tk s).
Proof.
  unfold upToGrab. rewrite !Forall_app. repeat split.
  - unfold releases. apply Forall_fmap, Forall_forall. intros w _. by left.
  - repeat first [apply Forall_nil_2 | apply Forall_cons_2]; simpl; tauto.
  - apply Forall_forall. intros o (w & -> & _)%elem_of_leaves. by left.
  - apply Forall_forall. intros o (w & -> & _)%elem_of_enters. by left.
  - apply Forall_forall. intros o [->|(g & _ & ->)]%elem_of_grab; by left.
Qed.

Lemma omap_nothing {A B} (f : A → option B) (l : list A) :
  Forall (λ x, f x = None) l → omap f l = [].
Proof.
  induction 1 as [|x l Hx _ IH]; [done|]. cbn [omap list_omap]. by rewrite Hx.
Qed.

Lemma leaves_are_sends prev new :
  Forall (λ o, ∃ w e, o = SendEvent w e) (leaves prev new).
Proof. apply Forall_forall. intros o (w & -> & _)%elem_of_leaves. eauto. Qed.

Lemma enters_are_sends prev new :
  Forall (λ o, ∃ w e, o = SendEvent w e) (enters prev new).
Proof. apply Forall_forall. intros o (w & -> & _)%elem_of_enters. eauto. Qed.

Lemma grab_not_send_or_release :
  Forall (λ o, (∀ w e, o ≠ SendEvent w e) ∧ (∀ w, o ≠ ReleaseMouse w)) (grab tk).
Proof. apply Forall_forall. by intros o [->|(g & _ & ->)]%elem_of_grab. Qed.

(** The [grabMouse] call of a move, when there is one. *)
Lemma grabMouseCalls_move obj event σ :
  type event = MouseMove →
  grabMouseCalls (eventFilter tk obj event σ).2
  = match grabTarget tk with Some g => [g] | None => [] end.
Proof.
  intros Hm. destruct (eventFilter_move_trace obj event σ Hm) as (rest & -> & Hr).
  unfold grabMouseCalls, upToGrab. rewrite !omap_app.
  rewrite (omap_nothing _ (releases _)), (omap_nothing _ (leaves _ _)),
    (omap_nothing _ (enters _ _)), (omap_nothing _ rest).
  - cbn. rewrite app_nil_r. unfold grab. by destruct (grabTarget tk).
  - eapply Forall_impl; [exact Hr|]. by intros [].
  - eapply Forall_impl; [apply enters_are_sends|]. by intros o (w & e & ->).
  - eapply Forall_impl; [apply leaves_are_sends|]. by intros o (w & e & ->).
  - unfold releases. apply Forall_fmap, Forall_forall. by intros w _.
Qed.

(** The [releaseMouse] calls of a move. *)
Lemma releaseMouseCalls_of_move obj event σ :
  type event = MouseMove →
  releaseMouseCalls (eventFilter tk obj event σ).2 = _mouseOver (this σ).
Proof.
  intros Hm. destruct (eventFilter_move_trace obj event σ Hm) as (rest & -> & Hr).
  unfold releaseMouseCalls, upToGrab. rewrite !omap_app.
  rewrite (omap_nothing _ (leaves _ _)), (omap_nothing _ (enters _ _)),
    (omap_nothing _ (grab tk)), (omap_nothing _ rest).
  - cbn. rewrite !app_nil_r. unfold releases.
    induction (_mouseOver (this σ)) as [|w l IH]; [done|]. cbn. by rewrite IH.
  - eapply Forall_impl; [exact Hr|]. by intros [].
  - apply Forall_forall. by intros o [->|(g & _ & ->)]%elem_of_grab.
  - eapply Forall_impl; [apply enters_are_sends|]. by intros o (w & e & ->).
  - eapply Forall_impl; [apply leaves_are_sends|]. by intros o (w & e & ->).
Qed.

(** The Enter and Leave events of a move, in order. *)
Lemma sendEventCalls_of_move obj event σ :
  type event = MouseMove →
  sendEventCalls (eventFilter tk obj event σ).2
  = sendEventCalls (leaves (_prevMouseOver (this σ))
                      (underCursor tk (parent (this σ))))
    ++ sendEventCalls (enters (_prevMouseOver (this σ))
                         (underCursor tk (parent (this σ)))).
Proof.
  intros Hm. destruct (eventFilter_move_trace obj event σ Hm) as (rest & -> & Hr).
  unfold sendEventCalls, upToGrab. rewrite !omap_app.
  rewrite (omap_nothing _ (releases _)), (omap_nothing _ (grab tk)),
    (omap_nothing _ rest).
  - cbn. by rewrite !app_nil_r.
  - eapply Forall_impl; [exact Hr|]. by intros [].
  - apply Forall_forall. by intros o [->|(g & _ & ->)]%elem_of_grab.
  - unfold releases. apply Forall_fmap, Forall_forall. by intros w _.
Qed.
End FilterFacts.

(** ** Runs of the tracker *)

Section StepFacts.
Import Qt MouseTracking Phases Observe.

Lemma steps_cons σ i inputs :
  steps σ (i :: inputs) = if returns σ i then steps (step σ i) inputs else step σ i.
Proof. reflexivity. Qed.

Lemma steps_preserve (P : State → Prop) :
  (∀ σ i, P σ → P (step σ i)) → ∀ inputs σ, P σ → P (steps σ inputs).
Proof.
  intros Hstep inputs. induction inputs as [|i inputs IH]; intros σ Hσ; [done|].
  rewrite steps_cons. destruct (returns σ i); [by apply IH, Hstep|by apply Hstep].
Qed.

Lemma step_not_move σ tk obj event :
  type event ≠ MouseMove → step σ (tk, obj, event) = σ.
Proof.
  intros Hm. unfold step.
  destruct (decide (type event = MouseButtonRelease)) as [Hr|Hr].
  - by rewrite eventFilter_release.
  - by rewrite eventFilter_other.
Qed.

Lemma returns_not_move σ tk obj event :
  type event ≠ MouseMove → returns σ (tk, obj, event) = true.
Proof.
  intros Hm. unfold returns.
  destruct (decide (type event = MouseButtonRelease)) as [Hr|Hr].
  - by rewrite eventFilter_release.
  - by rewrite eventFilter_other.
Qed.

Lemma returns_move σ tk obj event :
  type event = MouseMove → returns σ (tk, obj, event) = hasReceiver tk.
Proof.
  intros Hm. unfold returns, hasReceiver.
  destruct (grabTarget tk) as [g|] eqn:Hg.
  - by destruct (eventFilter_move tk obj event σ g Hm Hg) as (σ' & viewport & -> & _).
  - by rewrite eventFilter_move_stop.
Qed.

(** The filter returns from exactly the safe events. *)
Lemma returns_safe σ i : returns σ i = safe i.
Proof.
  destruct i as [[tk obj] event]. unfold safe, isMove. cbn [fst snd].
  destruct (decide (type event = MouseMove)) as [Hm|Hm].
  - rewrite returns_move by done. by rewrite bool_decide_eq_true_2.
  - rewrite returns_not_move by done. by rewrite bool_decide_eq_false_2.
Qed.

(** The state a mouse-move leaves, whether the filter returns from it or
    stops at the grab. *)
Lemma step_move σ tk obj event :
  type event = MouseMove →
  let σ' := step σ (tk, obj, event) in
  parent (this σ') = parent (this σ)
  ∧ _prevMouseOver (this σ')
    = (if hasReceiver tk then underCursor tk (parent (this σ))
       else _prevMouseOver (this σ))
  ∧ _mouseOver (this σ') = underCursor tk (parent (this σ))
  ∧ (∀ w, handlerOf σ' w =
          if hasReceiver tk
             && wraps tk (_filteredWidgets (this σ))
                  (findChildren tk (parent (this σ))) w
          then CallThenIgnore (handlerOf σ w)
          else handlerOf σ w)
  ∧ (∀ w, w ∈ _filteredWidgets (this σ') ↔
          w ∈ _filteredWidgets (this σ)
          ∨ (hasReceiver tk = true
             ∧ w ∈ findChildren tk (parent (this σ))
             ∧ inherits tk w "QAbstractScrollArea" = true)).
Proof.
  intros Hm. unfold step, hasReceiver.
  destruct (grabTarget tk) as [g|] eqn:Hg.
  - destruct (eventFilter_move tk obj event σ g Hm Hg)
      as (σ' & viewport & -> & Hp & Hprev & Hcur & Hh & _ & _ & Hf & _).
    cbn [fst snd andb]. do 4 (split; [done|]).
    intros w. rewrite Hf. tauto.
  - rewrite eventFilter_move_stop by done. cbn [fst snd andb].
    do 4 (split; [done|]). intros w. cbn. split; [by left|].
    by intros [?|(? & _)].
Qed.

Lemma new_constructed tk self p s ops handlers :
  new tk self p = Some (s, ops) →
  {| this := s; mouseMoveEvent := handlers |} = constructed p handlers.
Proof. unfold new. destruct (negb _); [done|]. by intros [= <- _]. Qed.

Lemma wraps_true tk filtered ws w :
  wraps tk filtered ws w = true ↔
  w ∈ ws ∧ inherits tk w "QAbstractScrollArea" = true ∧ w ∉ filtered.
Proof.
  unfold wraps. rewrite !andb_true_iff, negb_true_iff.
  rewrite bool_decide_eq_true, bool_decide_eq_false. tauto.
Qed.

(** In every run the tracked parent stays and the set holds at most one
    widget. *)
Lemma steps_invariant inputs :
  ∀ σ, length (_mouseOver (this σ)) ≤ 1 →
       parent (this (steps σ inputs)) = parent (this σ)
       ∧ length (_mouseOver (this (steps σ inputs))) ≤ 1.
Proof.
  intros σ Hlen.
  apply (steps_preserve (λ σ', parent (this σ') = parent (this σ)
                               ∧ length (_mouseOver (this σ')) ≤ 1)); [|done].
  intros σ1 [[tk obj] event] [Hp Hl].
  destruct (decide (type event = MouseMove)) as [Hm|Hm].
  - destruct (step_move σ1 tk obj event Hm) as (-> & _ & -> & _).
    split; [done|apply underCursor_length].
  - by rewrite step_not_move.
Qed.

(** Over events the filter returns from, the previous set is the current
    one, and it is the set the last mouse-move computed. *)
Lemma steps_sets p inputs :
  ∀ σ, parent (this σ) = p →
       _prevMouseOver (this σ) = _mouseOver (this σ) →
       Forall (λ i, safe i = true) inputs →
       _prevMouseOver (this (steps σ inputs)) = _mouseOver (this (steps σ inputs))
       ∧ _mouseOver (this (steps σ inputs))
         = foldl (λ set i, if isMove i then underCursor i.1.1 p else set)
                 (_mouseOver (this σ)) inputs.
Proof.
  induction inputs as [|[[tk obj] event] inputs IH]; intros σ Hp Heq Hsafe; [done|].
  apply Forall_cons_1 in Hsafe as [Hi Hsafe].
  rewrite steps_cons, returns_safe, Hi. cbn [foldl].
  unfold isMove at 2. cbn [fst snd].
  unfold safe, isMove in Hi. cbn [fst snd] in Hi.
  destruct (decide (type event = MouseMove)) as [Hm|Hm].
  - rewrite bool_decide_eq_true_2 in Hi |- * by done. cbn in Hi.
    destruct (step_move σ tk obj event Hm) as (Hp' & Hprev & Hcur & _).
    rewrite Hi in Hprev.
    destruct (IH (step σ (tk, obj, event))) as [H1 H2];
      [congruence|congruence|done|].
    split; [done|]. rewrite H2, Hcur. by rewrite Hp.
  - rewrite bool_decide_eq_false_2 by done. rewrite step_not_move by done.
    by apply IH.
Qed.

(** From construction on. *)
Lemma constructed_sets p handlers inputs :
  Forall (λ i, safe i = true) inputs →
  let σ := steps (constructed p handlers) inputs in
  _prevMouseOver (this σ) = _mouseOver (this σ)
  ∧ _mouseOver (this σ) = lastUnderCursor p inputs
  ∧ length (_mouseOver (this σ)) ≤ 1
  ∧ parent (this σ) = p.
Proof.
  intros Hsafe σ.
  destruct (steps_sets p inputs (constructed p handlers)) as [H1 H2]; try done.
  destruct (steps_invariant inputs (constructed p handlers)) as [H3 H4];
    [simpl; lia|].
  done.
Qed.
End StepFacts.

(** * The claims *)

(** C1. On a mouse-move, once the set of widgets under the cursor has been
    recomputed, exactly the widgets of the previous set (the set the previous
    mouse-move computed) that are not in the new one are sent a Leave event,
    exactly the widgets of the new set that were not in the previous one are
    sent an Enter event, and a widget that is in both is sent nothing. This
    holds for every mouse-move the tracker filters after its construction
    and any events it has returned from. *)
Theorem C1_enter_and_leave_events (tk0 : Qt.Toolkit) (self parent : Qt.QObject)
    (s0 : MouseTracking.t) (ops0 : list Qt.Op)
    (handlers : gmap Qt.QObject Qt.Handler) (inputs : list MouseTracking.Input)
    (tk : Qt.Toolkit) (obj : Qt.QObject) (event : Qt.QEvent) :
  MouseTracking.new tk0 self parent = Some (s0, ops0) →
  Forall (λ i, Observe.safe i = true) inputs →
  Qt.type event = Qt.MouseMove →
  let σ := MouseTracking.steps
             {| MouseTracking.this := s0; MouseTracking.mouseMoveEvent := handlers |}
             inputs in
  let ops := (MouseTracking.eventFilter tk obj event σ).2 in
  let prev := Observe.lastUnderCursor parent inputs in
  let new := Phases.underCursor tk parent in
  MouseTracking._mouseOver
    (MouseTracking.this (MouseTracking.step σ (tk, obj, event))) = new
  ∧ ∀ w,
      (Qt.SendEvent w (Qt.Event Qt.Leave) ∈ ops ↔ w ∈ prev ∧ w ∉ new)
      ∧ (Qt.SendEvent w (Qt.Event Qt.Enter) ∈ ops ↔ w ∈ new ∧ w ∉ prev)
      ∧ (w ∈ prev → w ∈ new → ∀ e, Qt.SendEvent w e ∉ ops).
Proof.
  intros Hnew Hsafe Ht. rewrite (new_constructed _ _ _ _ _ handlers Hnew).
  intros σ ops prev new. subst ops prev new.
  destruct (constructed_sets parent handlers inputs Hsafe) as (Hprev & Hcur & _ & Hp).
  fold σ in Hprev, Hcur, Hp.
  destruct (step_move σ tk obj event Ht) as (_ & _ & Hnow & _).
  rewrite Hnow, Hp. split; [done|]. intros w.
  rewrite !sendEvent_move by done. rewrite Hprev, Hcur, Hp.
  split; [|split].
  - split.
    + by intros [(_ & ? & ?)|([=] & _)].
    + intros [? ?]. by left.
  - split.
    + by intros [([=] & _)|(_ & ? & ?)].
    + intros [? ?]. by right.
  - intros Hw Hn e. rewrite sendEvent_move by done. rewrite Hprev, Hcur, Hp.
    by intros [(_ & _ & ?)|(_ & _ & ?)].
Qed.

Lemma C1_enter_and_leave_events_witness :
  MouseTracking.new (Demo.app None) 7 1
  = Some (MouseTracking.this Demo.fresh, [Qt.InstallEventFilter 1 7])
  ∧ Forall (λ i, Observe.safe i = true) [ (Demo.app (Some 2), 1, Demo.move) ]
  ∧ Qt.type Demo.move = Qt.MouseMove
  ∧ Qt.SendEvent 2 (Qt.Event Qt.Leave)
      ∈ (MouseTracking.eventFilter (Demo.app (Some 3)) 1 Demo.move
           (MouseTracking.steps Demo.fresh [ (Demo.app (Some 2), 1, Demo.move) ])).2
  ∧ Qt.SendEvent 3 (Qt.Event Qt.Enter)
      ∈ (MouseTracking.eventFilter (Demo.app (Some 3)) 1 Demo.move
           (MouseTracking.steps Demo.fresh [ (Demo.app (Some 2), 1, Demo.move) ])).2
  ∧ (Qt.SendEvent 2 (Qt.Event Qt.Enter)
       ∉ (MouseTracking.eventFilter (Demo.app (Some 2)) 1 Demo.move
            (MouseTracking.steps Demo.fresh [ (Demo.app (Some 2), 1, Demo.move) ])).2).
Proof.
  assert (Hsafe : Forall (λ i, Observe.safe i = true)
                    [ (Demo.app (Some 2), 1, Demo.move) ])
    by (repeat constructor).
  split; [reflexivity|]. split; [exact Hsafe|]. split; [reflexivity|].
  pose proof (λ top, C1_enter_and_leave_events (Demo.app None) 7 1
                (MouseTracking.this Demo.fresh) [Qt.InstallEventFilter 1 7] ∅
                [ (Demo.app (Some 2), 1, Demo.move) ] (Demo.app top) 1 Demo.move
                eq_refl Hsafe eq_refl) as H.
  split; [|split].
  - apply (H (Some 3)). vm_compute.
    split; [left|]. intros Hin. inversion Hin as [|? ? ? Hin']. inversion Hin'.
  - apply (H (Some 3)). vm_compute.
    split; [left|]. intros Hin. inversion Hin as [|? ? ? Hin']. inversion Hin'.
  - apply (H (Some 2)); vm_compute; left.
Defined.

(** C2. A mouse-move calls [grabMouse] through one pointer: the top widget
    under the cursor, unless that widget is a push button that is not
    pressed, a combo box whose popup is not visible, or a slider or scroll
    bar that is not being dragged ([atRest]); then, and when no widget lies
    under the cursor, the pointer [QApplication::activeWindow()] returns.
    When that pointer is a widget, exactly one [grabMouse] call is made, on
    it. When it is null (the application has no active window) the call is
    made through the null pointer: the filter does not return, no widget
    grabs the mouse and the previous set is not replaced. *)
Theorem C2_one_grab_or_null_dereference (tk : Qt.Toolkit) (obj : Qt.QObject)
    (event : Qt.QEvent) (σ : MouseTracking.State) :
  Qt.type event = Qt.MouseMove →
  let result := MouseTracking.eventFilter tk obj event σ in
  match
    match Qt.widgetAt tk (Qt.cursor_pos tk) with
    | Some w => if Phases.atRest tk w then Qt.activeWindow tk else Some w
    | None => Qt.activeWindow tk
    end
  with
  | Some receiver =>
      result.1.1 = Some false ∧ Phases.grabMouseCalls result.2 = [receiver]
  | None =>
      result.1.1 = None ∧ Phases.grabMouseCalls result.2 = []
      ∧ MouseTracking._prevMouseOver (MouseTracking.this result.1.2)
        = MouseTracking._prevMouseOver (MouseTracking.this σ)
      ∧ ∀ l, Qt.Set_prevMouseOver l ∉ result.2
  end.
Proof.
  intros Ht result. subst result.
  fold (Phases.grabTarget tk).
  pose proof (grabMouseCalls_move tk obj event σ Ht) as Hcalls.
  destruct (Phases.grabTarget tk) as [g|] eqn:Hg.
  - split; [|done].
    by destruct (eventFilter_move tk obj event σ g Ht Hg) as (σ' & viewport & -> & _).
  - split; [by rewrite eventFilter_move_stop|]. split; [done|].
    rewrite eventFilter_move_stop by done. cbn [fst snd]. split; [done|].
    intros l Hin.
    pose proof (upToGrab_kinds tk (MouseTracking.this σ)) as Hk.
    rewrite Forall_forall in Hk.
    unfold Phases.upToGrab in Hin. rewrite !elem_of_app in Hin.
    destruct Hin as [Hin|[Hin|[Hin|[Hin|Hin]]]].
    + by apply list_elem_of_fmap in Hin as (? & ? & _).
    + unfold Phases.recompute in Hin. rewrite !elem_of_cons, elem_of_nil in Hin.
      by destruct Hin as [?|[?|[?|[]]]].
    + by apply elem_of_leaves in Hin as (? & ? & _).
    + by apply elem_of_enters in Hin as (? & ? & _).
    + by apply elem_of_grab in Hin as [?|(? & _ & ?)].
Qed.

Lemma C2_one_grab_or_null_dereference_witness :
  Qt.type Demo.move = Qt.MouseMove
  ∧ (MouseTracking.eventFilter (Demo.inactive (Some 2)) 1 Demo.move
       Demo.overButton).1.1 = None
  ∧ Phases.grabMouseCalls
      (MouseTracking.eventFilter (Demo.inactive (Some 2)) 1 Demo.move
         Demo.overButton).2 = []
  ∧ Phases.grabMouseCalls
      (MouseTracking.eventFilter (Demo.inactive None) 1 Demo.move
         Demo.overButton).2 = [].
Proof.
  split; [reflexivity|].
  pose proof (C2_one_grab_or_null_dereference (Demo.inactive (Some 2)) 1 Demo.move
                Demo.overButton eq_refl) as (Hr & Hg & _).
  pose proof (C2_one_grab_or_null_dereference (Demo.inactive None) 1 Demo.move
                Demo.overButton eq_refl) as (_ & Hg' & _).
  split; [exact Hr|]. split; [exact Hg|exact Hg'].
Defined.

(** C3. On a MouseButtonRelease the filter posts a release event to a widget
    if and only if that widget is the one under the cursor, is a
    QAbstractButton and is not down; the event carries the button of the
    filtered event and the cursor position. Nothing else is posted, at most
    one event is, and the tracker's state is left as it was. *)
Theorem C3_synthetic_release (tk : Qt.Toolkit) (obj : Qt.QObject)
    (event : Qt.QEvent) (σ : MouseTracking.State) :
  Qt.type event = Qt.MouseButtonRelease →
  (MouseTracking.eventFilter tk obj event σ).1.2 = σ
  ∧ length (MouseTracking.eventFilter tk obj event σ).2 ≤ 2
  ∧ ∀ w e,
      Qt.PostEvent w e ∈ (MouseTracking.eventFilter tk obj event σ).2 ↔
      Qt.widgetAt tk (Qt.cursor_pos tk) = Some w
      ∧ Qt.inherits tk w "QAbstractButton" = true
      ∧ Qt.isDown tk w = false
      ∧ e = Qt.MouseEvent Qt.MouseButtonRelease (Qt.cursor_pos tk)
              (Qt.button event) (Qt.button event) Qt.NoModifier.
Proof.
  intros Ht. rewrite eventFilter_release by done. cbn [fst snd]. unfold Phases.posted.
  split; [done|].
  destruct (Qt.widgetAt tk (Qt.cursor_pos tk)) as [v|].
  - destruct (Qt.inherits tk v "QAbstractButton") eqn:Ei;
      [destruct (Qt.isDown tk v) eqn:Ed|]; cbn [andb negb length];
      (split; [lia|]); intros w e;
      rewrite ?elem_of_cons, ?elem_of_nil; split;
      try (intros [?|[?|[]]]); try (intros [?|[]]);
      try discriminate; try (intros ([= <-] & ? & ? & ?); congruence).
    + match goal with H : Qt.PostEvent _ _ = _ |- _ => injection H as -> -> end.
      done.
    + intros ([= <-] & _ & _ & ->). right; by left.
  - split; [simpl; lia|]. intros w e. rewrite elem_of_cons, elem_of_nil.
    split; [by intros [?|[]]|]. by intros (? & _).
Qed.

Lemma C3_synthetic_release_witness :
  Qt.type Demo.release = Qt.MouseButtonRelease
  ∧ Qt.PostEvent 2 (Qt.MouseEvent Qt.MouseButtonRelease (10, 20)%Z 1 1 Qt.NoModifier)
      ∈ (MouseTracking.eventFilter (Demo.app (Some 2)) 1 Demo.release
           Demo.overButton).2.
Proof.
  split; [reflexivity|].
  apply (C3_synthetic_release (Demo.app (Some 2)) 1 Demo.release Demo.overButton
           eq_refl).
  repeat split; reflexivity.
Defined.

(** C4. Whatever the event type and the prefix, [formatEventName] gives the
    prefix followed by "event": the text the pattern is matched against is
    the decimal rendering of the type's number and has no dot in it, so the
    match fails. Hence the only slot [EventFactoryFilter::eventFilter] ever
    invokes is the one named by the prefix followed by "event". *)
Theorem C4_formatEventName_is_constant (tk : Qt.Toolkit)
    (self : EventFactoryFilter.t) (obj : Qt.QObject) (event : Qt.QEvent)
    (eventType : Z) (prefix : string) :
  Regex.regex_match (Str.number eventType) EventFactoryFilter.regexPattern = None
  ∧ EventFactoryFilter.formatEventName eventType prefix = prefix +:+ "event"
  ∧ (EventFactoryFilter.eventFilter tk self obj event).2
    = if (EventFactoryFilter.eventFilter tk self obj event).1
      then [ Qt.InvokeMethod (EventFactoryFilter.forwardEventsTo self)
               (EventFactoryFilter.eventNamePrefix self +:+ "event")
               (Qt.qobject_cast tk "QWidget" obj) event ]
      else [].
Proof.
  split; [apply regex_match_number|]. split.
  - unfold EventFactoryFilter.formatEventName. by rewrite regex_match_number.
  - unfold EventFactoryFilter.eventFilter, EventFactoryFilter.formatEventName.
    rewrite regex_match_number. by destruct (_ <=? _)%Z.
Qed.

(** C7. [EventFactoryFilter::eventFilter] returns true if and only if the
    forward target declares a slot with the formatted event name and the
    signature taking a widget and an event; then that slot is invoked on the
    target with the watched object, cast to a widget, and the event.
    Otherwise it returns false and invokes nothing. *)
Theorem C7_consumes_iff_slot_declared (tk : Qt.Toolkit)
    (self : EventFactoryFilter.t) (obj : Qt.QObject) (event : Qt.QEvent) :
  let methodName :=
    EventFactoryFilter.formatEventName (Qt.type event)
      (EventFactoryFilter.eventNamePrefix self) in
  let result := EventFactoryFilter.eventFilter tk self obj event in
  (result.1 = true ↔
   (0 ≤ Qt.indexOfSlot tk (EventFactoryFilter.forwardEventsTo self)
          (Qt.normalizedSignature tk (methodName +:+ "(QWidget*, QEvent*)")))%Z)
  ∧ result.2
    = if result.1
      then [ Qt.InvokeMethod (EventFactoryFilter.forwardEventsTo self) methodName
               (Qt.qobject_cast tk "QWidget" obj) event ]
      else [].
Proof.
  intros methodName result. subst result methodName.
  unfold EventFactoryFilter.eventFilter.
  destruct (Z.leb_spec 0
    (Qt.indexOfSlot tk (EventFactoryFilter.forwardEventsTo self)
       (Qt.normalizedSignature tk
          (EventFactoryFilter.formatEventName (Qt.type event)
             (EventFactoryFilter.eventNamePrefix self) +:+ "(QWidget*, QEvent*)"))));
    cbn [fst snd]; (split; [split|]); try done; lia.
Qed.

(** C9. An event that is neither a MouseMove nor a MouseButtonRelease makes
    the MouseTracking filter do nothing: no operation at all is performed and
    the state, with every tracking field, is unchanged. *)
Theorem C9_other_events_are_ignored (tk : Qt.Toolkit) (obj : Qt.QObject)
    (event : Qt.QEvent) (σ : MouseTracking.State) :
  Qt.type event ≠ Qt.MouseMove →
  Qt.type event ≠ Qt.MouseButtonRelease →
  (MouseTracking.eventFilter tk obj event σ).2 = []
  ∧ (MouseTracking.eventFilter tk obj event σ).1.2 = σ.
Proof. intros Hm Hr. by rewrite eventFilter_other. Qed.

Lemma C9_other_events_are_ignored_witness :
  Qt.type Demo.keyPress ≠ Qt.MouseMove
  ∧ Qt.type Demo.keyPress ≠ Qt.MouseButtonRelease
  ∧ (MouseTracking.eventFilter (Demo.app (Some 2)) 1 Demo.keyPress
       Demo.overButton).2 = []
  ∧ (MouseTracking.eventFilter (Demo.app (Some 2)) 1 Demo.keyPress
       Demo.overButton).1.2 = Demo.overButton.
Proof.
  assert (Hm : Qt.type Demo.keyPress ≠ Qt.MouseMove) by (vm_compute; lia).
  assert (Hr : Qt.type Demo.keyPress ≠ Qt.MouseButtonRelease) by (vm_compute; lia).
  split; [exact Hm|]. split; [exact Hr|].
  exact (C9_other_events_are_ignored (Demo.app (Some 2)) 1 Demo.keyPress
           Demo.overButton Hm Hr).
Defined.


(** C5. The set of widgets under the cursor never holds more than one
    widget. In every state the tracker reaches from its construction the set
    has at most one element; whenever the set is written, the value written
    has at most one element and holds a widget exactly when that widget is
    the one [widgetAt] returns at the cursor position and is a descendant of
    the tracked parent; and that is the set after a mouse-move. *)
Theorem C5_at_most_one_under_cursor (tk0 : Qt.Toolkit) (self parent : Qt.QObject)
    (s0 : MouseTracking.t) (ops0 : list Qt.Op)
    (handlers : gmap Qt.QObject Qt.Handler) (inputs : list MouseTracking.Input) :
  MouseTracking.new tk0 self parent = Some (s0, ops0) →
  let σ := MouseTracking.steps
             {| MouseTracking.this := s0; MouseTracking.mouseMoveEvent := handlers |}
             inputs in
  length (MouseTracking._mouseOver (MouseTracking.this σ)) ≤ 1
  ∧ ∀ tk obj event,
      (∀ l, Qt.Set_mouseOver l ∈ (MouseTracking.eventFilter tk obj event σ).2 →
            length l ≤ 1
            ∧ ∀ w, w ∈ l ↔ Qt.widgetAt tk (Qt.cursor_pos tk) = Some w
                           ∧ w ∈ Qt.findChildren tk parent)
      ∧ (Qt.type event = Qt.MouseMove →
         ∀ w, w ∈ MouseTracking._mouseOver
                    (MouseTracking.this (MouseTracking.step σ (tk, obj, event)))
              ↔ Qt.widgetAt tk (Qt.cursor_pos tk) = Some w
                ∧ w ∈ Qt.findChildren tk parent).
Proof.
  intros Hnew. rewrite (new_constructed _ _ _ _ _ handlers Hnew).
  set (σ := MouseTracking.steps _ inputs).
  destruct (steps_invariant inputs (Observe.constructed parent handlers))
    as [Hp Hlen]; [simpl; lia|].
  fold σ in Hp, Hlen. cbn [MouseTracking.this MouseTracking.parent
                           Observe.constructed] in Hp.
  split; [exact Hlen|]. intros tk obj event.
  destruct (decide (Qt.type event = Qt.MouseMove)) as [Hm|Hm].
  - split.
    + intros l Hl. apply set_mouseOver_move in Hl as ->; [|done].
      rewrite Hp. split; [apply underCursor_length|].
      intros w. apply elem_of_underCursor.
    + intros _ w. destruct (step_move σ tk obj event Hm) as (_ & _ & -> & _).
      rewrite Hp. apply elem_of_underCursor.
  - split; [|done]. intros l.
    destruct (decide (Qt.type event = Qt.MouseButtonRelease)) as [Hr|Hr].
    + rewrite eventFilter_release by done. cbn [snd]. unfold Phases.posted.
      rewrite elem_of_cons. intros [?|Hin]; [done|].
      destruct (Qt.widgetAt tk (Qt.cursor_pos tk)); [|by apply elem_of_nil in Hin].
      destruct (_ && _); [|by apply elem_of_nil in Hin].
      by apply list_elem_of_singleton in Hin.
    + rewrite eventFilter_other by done. cbn [snd]. by intros ?%elem_of_nil.
Qed.

Lemma C5_at_most_one_under_cursor_witness :
  MouseTracking.new (Demo.app None) 7 1
  = Some (MouseTracking.this Demo.fresh, [Qt.InstallEventFilter 1 7])
  ∧ length (MouseTracking._mouseOver (MouseTracking.this
      (MouseTracking.steps Demo.fresh
         [ (Demo.app (Some 2), 1, Demo.move); (Demo.app (Some 9), 1, Demo.release);
           (Demo.app (Some 4), 1, Demo.move) ]))) ≤ 1.
Proof.
  split; [reflexivity|].
  apply (C5_at_most_one_under_cursor (Demo.app None) 7 1
           (MouseTracking.this Demo.fresh) [Qt.InstallEventFilter 1 7] ∅
           [ (Demo.app (Some 2), 1, Demo.move); (Demo.app (Some 9), 1, Demo.release);
             (Demo.app (Some 4), 1, Demo.move) ] eq_refl).
Defined.

(** C6, as stated, fails: the replacement of the previous set is not the
    last thing a mouse-move does. With a list view among the descendants, the
    six phases are followed by two more operations, and the last one writes
    the list view's [mouseMoveEvent]. *)
Lemma C6_not_finally_the_replacement :
  (MouseTracking.eventFilter (Demo.app (Some 4)) 1 Demo.move Demo.fresh).2
  = Phases.sixPhases (Demo.app (Some 4)) (MouseTracking.this Demo.fresh)
    ++ [ Qt.Insert_filteredWidgets 4;
         Qt.Set_mouseMoveEvent 4 (Qt.CallThenIgnore Qt.ClassHandler) ]
  ∧ last (MouseTracking.eventFilter (Demo.app (Some 4)) 1 Demo.move Demo.fresh).2
    = Some (Qt.Set_mouseMoveEvent 4 (Qt.CallThenIgnore Qt.ClassHandler))
  ∧ (MouseTracking.eventFilter (Demo.app (Some 4)) 1 Demo.move Demo.fresh).2
    ≠ Phases.sixPhases (Demo.app (Some 4)) (MouseTracking.this Demo.fresh).
Proof. vm_compute. repeat split. discriminate. Qed.

(** C6, amended. A mouse-move whose grab has a receiver performs, in this
    order: [releaseMouse] on every widget of the set computed on the previous
    move, the recomputation of the set by hit-testing, the Leave events, the
    Enter events, the reassignment of the mouse grab, the replacement of the
    previous set by the new one, and then the viewport pass of
    [filterViewportWidgets]. That pass marks as filtered exactly the
    descendants that are scroll areas and were not yet filtered, and writes
    the handler of exactly those, wrapping the handler each had. *)
Theorem C6_order_of_a_move (tk : Qt.Toolkit) (obj : Qt.QObject)
    (event : Qt.QEvent) (σ : MouseTracking.State) (receiver : Qt.QObject) :
  Qt.type event = Qt.MouseMove →
  Phases.grabTarget tk = Some receiver →
  let s := MouseTracking.this σ in
  let prev := MouseTracking._prevMouseOver s in
  let new := Phases.underCursor tk (MouseTracking.parent s) in
  let unfiltered w :=
    w ∈ Qt.findChildren tk (MouseTracking.parent s)
    ∧ Qt.inherits tk w "QAbstractScrollArea" = true
    ∧ w ∉ MouseTracking._filteredWidgets s in
  ∃ viewport,
    (MouseTracking.eventFilter tk obj event σ).2
    = Phases.releases (MouseTracking._mouseOver s)
      ++ Phases.recompute tk (MouseTracking.parent s)
      ++ Phases.leaves prev new
      ++ Phases.enters prev new
      ++ [Qt.WidgetAt (Qt.cursor_pos tk); Qt.GrabMouse receiver]
      ++ [Qt.Set_prevMouseOver new]
      ++ viewport
    ∧ viewport = (MouseTracking.filterViewportWidgets tk (Phases.tracked tk σ)).2
    ∧ MouseTracking._mouseOver
        (MouseTracking.this (MouseTracking.eventFilter tk obj event σ).1.2) = new
    ∧ MouseTracking._prevMouseOver
        (MouseTracking.this (MouseTracking.eventFilter tk obj event σ).1.2) = new
    ∧ (∀ w, Qt.Insert_filteredWidgets w ∈ viewport ↔ unfiltered w)
    ∧ (∀ w h, Qt.Set_mouseMoveEvent w h ∈ viewport ↔
              unfiltered w ∧ h = Qt.CallThenIgnore (MouseTracking.handlerOf σ w))
    ∧ Forall (λ o, (∃ w, o = Qt.Insert_filteredWidgets w)
                   ∨ (∃ w h, o = Qt.Set_mouseMoveEvent w h)) viewport.
Proof.
  intros Ht Hg s prev new unfiltered. subst s prev new unfiltered.
  destruct (eventFilter_move tk obj event σ receiver Ht Hg)
    as (σ' & viewport & -> & _ & Hprev & Hnew & _ & Hops & Hrun & _ & Hall).
  exists viewport. cbn [fst snd]. split.
  { unfold Phases.sixPhases, Phases.grab. rewrite Hg. by rewrite <- !app_assoc. }
  split.
  { rewrite filterViewportWidgets_unfold.
    change (MouseTracking._widgets (MouseTracking.this (Phases.tracked tk σ)))
      with (Qt.findChildren tk (MouseTracking.parent (MouseTracking.this σ))).
    by rewrite Hrun. }
  do 2 (split; [done|]).
  rewrite Forall_forall in Hops. split; [|split].
  - intros w. rewrite <- wraps_true. split.
    + intros Hin. by apply Hops in Hin.
    + intros Hw. by apply Hall.
  - intros w h. rewrite <- wraps_true. split.
    + intros Hin. by apply Hops in Hin.
    + intros [Hw ->]. by apply Hall.
  - apply Forall_forall. intros o Ho. apply Hops in Ho.
    destruct o; simpl in Ho; try done; eauto.
Qed.

Lemma C6_order_of_a_move_witness :
  Qt.type Demo.move = Qt.MouseMove
  ∧ Phases.grabTarget (Demo.app (Some 4)) = Some 4
  ∧ Qt.Insert_filteredWidgets 4
      ∈ (MouseTracking.eventFilter (Demo.app (Some 4)) 1 Demo.move Demo.fresh).2
  ∧ Qt.Set_mouseMoveEvent 4 (Qt.CallThenIgnore Qt.ClassHandler)
      ∈ (MouseTracking.eventFilter (Demo.app (Some 4)) 1 Demo.move Demo.fresh).2.
Proof.
  split; [reflexivity|]. split; [reflexivity|].
  destruct (C6_order_of_a_move (Demo.app (Some 4)) 1 Demo.move Demo.fresh 4
              eq_refl eq_refl) as (viewport & -> & _ & _ & _ & Hi & Hs & _).
  assert (H4 : 4 ∈ Qt.findChildren (Demo.app (Some 4))
                     (MouseTracking.parent (MouseTracking.this Demo.fresh))
               ∧ Qt.inherits (Demo.app (Some 4)) 4 "QAbstractScrollArea" = true
               ∧ 4 ∉ MouseTracking._filteredWidgets (MouseTracking.this Demo.fresh)).
  { split; [apply (bool_decide_unpack _); vm_compute; exact I|].
    split; [reflexivity|]. apply (bool_decide_unpack _). vm_compute. exact I. }
  split.
  - rewrite !elem_of_app. do 6 right. by apply Hi.
  - rewrite !elem_of_app. do 6 right. apply Hs. split; [exact H4|reflexivity].
Defined.

(** C8, as stated, fails: a mouse-move rewrites a widget's own handler. The
    list view [4] has its class's [mouseMoveEvent] before the move and a
    wrapper around it after. *)
Lemma C8_a_handler_is_rewritten :
  MouseTracking.handlerOf Demo.fresh 4 = Qt.ClassHandler
  ∧ MouseTracking.handlerOf
      (MouseTracking.eventFilter (Demo.app (Some 4)) 1 Demo.move Demo.fresh).1.2 4
    = Qt.CallThenIgnore Qt.ClassHandler
  ∧ last (MouseTracking.eventFilter (Demo.app (Some 4)) 1 Demo.move Demo.fresh).2
    = Some (Qt.Set_mouseMoveEvent 4 (Qt.CallThenIgnore Qt.ClassHandler)).
Proof. vm_compute. repeat split. Qed.

(** C8, amended. Processing an event changes a widget in one way only: on a
    mouse-move whose grab has a receiver, every descendant of the tracked
    parent that is a QAbstractScrollArea and is not yet in the filtered set
    has its [mouseMoveEvent] replaced by a wrapper that calls the handler it
    had and then ignores the event, and is in the filtered set afterwards.
    Every other handler is left as it was, and every other operation is a
    call to a toolkit primitive or a write to one of the filter's own
    tracking fields. *)
Theorem C8_only_scroll_area_handlers_change (tk : Qt.Toolkit) (obj : Qt.QObject)
    (event : Qt.QEvent) (σ : MouseTracking.State) :
  let result := MouseTracking.eventFilter tk obj event σ in
  let wrapped w :=
    bool_decide (Qt.type event = Qt.MouseMove)
    && Phases.hasReceiver tk
    && Phases.wraps tk (MouseTracking._filteredWidgets (MouseTracking.this σ))
         (Qt.findChildren tk (MouseTracking.parent (MouseTracking.this σ))) w in
  (∀ w, MouseTracking.handlerOf result.1.2 w
        = if wrapped w then Qt.CallThenIgnore (MouseTracking.handlerOf σ w)
          else MouseTracking.handlerOf σ w)
  ∧ (∀ w, wrapped w = true →
          w ∈ MouseTracking._filteredWidgets (MouseTracking.this result.1.2)
          ∧ Qt.Set_mouseMoveEvent w
              (Qt.CallThenIgnore (MouseTracking.handlerOf σ w)) ∈ result.2)
  ∧ Forall (λ o, Phases.toolkitCall o ∨ Phases.ownField o
                 ∨ ∃ w, wrapped w = true
                        ∧ o = Qt.Set_mouseMoveEvent w
                                (Qt.CallThenIgnore (MouseTracking.handlerOf σ w)))
           result.2.
Proof.
  intros result wrapped. subst result wrapped. cbv beta.
  destruct (decide (Qt.type event = Qt.MouseMove)) as [Hm|Hm].
  - rewrite (bool_decide_eq_true_2 _ Hm). cbn [andb]. unfold Phases.hasReceiver.
    destruct (Phases.grabTarget tk) as [g|] eqn:Hg; cbn [andb].
    + destruct (eventFilter_move tk obj event σ g Hm Hg)
        as (σ' & viewport & -> & _ & _ & _ & Hh & Hops & _ & Hf & Hall).
      cbn [fst snd]. split; [exact Hh|]. split.
      { intros w Hw. split.
        - apply Hf. right. by apply wraps_true in Hw as (? & ? & _).
        - apply elem_of_app. right. by apply Hall. }
      apply Forall_app. split.
      * rewrite sixPhases_upToGrab. apply Forall_app. split.
        -- eapply Forall_impl; [apply upToGrab_kinds|]. intros o [?|?]; auto.
        -- apply Forall_cons_2; [right; by left|done].
      * eapply Forall_impl; [exact Hops|]. intros [] Ho; simpl in Ho; try done.
        -- right; by left.
        -- destruct Ho as [Hw ->]. right; right. eauto.
    + rewrite eventFilter_move_stop by done. cbn [fst snd].
      split; [done|]. split; [done|].
      eapply Forall_impl; [apply upToGrab_kinds|]. intros o [?|?]; auto.
  - rewrite (bool_decide_eq_false_2 _ Hm). cbn [andb].
    destruct (decide (Qt.type event = Qt.MouseButtonRelease)) as [Hr|Hr].
    + rewrite eventFilter_release by done. cbn [fst snd].
      split; [done|]. split; [done|].
      apply Forall_cons_2; [by left|]. unfold Phases.posted.
      destruct (Qt.widgetAt tk (Qt.cursor_pos tk)); [|done].
      destruct (_ && _); [|done]. apply Forall_cons_2; [by left|done].
    + rewrite eventFilter_other by done. by repeat split.
Qed.

(** * Further properties of the code *)

(** X1. In every state the tracker reaches from its construction over events
    it has returned from, the previous under-cursor set and the current one
    are the same list: every move ends by copying the one into the other,
    and nothing else writes either. *)
Theorem X1_previous_set_is_current (tk0 : Qt.Toolkit) (self parent : Qt.QObject)
    (s0 : MouseTracking.t) (ops0 : list Qt.Op)
    (handlers : gmap Qt.QObject Qt.Handler) (inputs : list MouseTracking.Input) :
  MouseTracking.new tk0 self parent = Some (s0, ops0) →
  Forall (λ i, Observe.safe i = true) inputs →
  let σ := MouseTracking.steps
             {| MouseTracking.this := s0; MouseTracking.mouseMoveEvent := handlers |}
             inputs in
  MouseTracking._prevMouseOver (MouseTracking.this σ)
  = MouseTracking._mouseOver (MouseTracking.this σ).
Proof.
  intros Hnew Hsafe. rewrite (new_constructed _ _ _ _ _ handlers Hnew).
  by apply constructed_sets.
Qed.

Lemma X1_previous_set_is_current_witness :
  MouseTracking.new (Demo.app None) 7 1
  = Some (MouseTracking.this Demo.fresh, [Qt.InstallEventFilter 1 7])
  ∧ Forall (λ i, Observe.safe i = true)
      [ (Demo.app (Some 2), 1, Demo.move); (Demo.app (Some 3), 1, Demo.release) ]
  ∧ MouseTracking._prevMouseOver (MouseTracking.this
      (MouseTracking.steps Demo.fresh
         [ (Demo.app (Some 2), 1, Demo.move); (Demo.app (Some 3), 1, Demo.release) ]))
    = [2].
Proof.
  assert (Hsafe : Forall (λ i, Observe.safe i = true)
      [ (Demo.app (Some 2), 1, Demo.move); (Demo.app (Some 3), 1, Demo.release) ])
    by (repeat constructor).
  split; [reflexivity|]. split; [exact Hsafe|].
  rewrite (X1_previous_set_is_current (Demo.app None) 7 1
             (MouseTracking.this Demo.fresh) [Qt.InstallEventFilter 1 7] ∅
             [ (Demo.app (Some 2), 1, Demo.move); (Demo.app (Some 3), 1, Demo.release) ]
             eq_refl Hsafe).
  reflexivity.
Defined.

(** X2. Only mouse-moves change the tracker: a run over any sequence of
    filtered events ends in the same state as the run over its mouse-moves
    alone. *)
Theorem X2_only_moves_matter (σ : MouseTracking.State)
    (inputs : list MouseTracking.Input) :
  MouseTracking.steps σ inputs
  = MouseTracking.steps σ (filter (λ i, Observe.isMove i = true) inputs).
Proof.
  revert σ. induction inputs as [|[[tk obj] event] inputs IH]; intros σ; [done|].
  rewrite steps_cons. unfold Observe.isMove at 1. cbn [snd].
  destruct (decide (Qt.type event = Qt.MouseMove)) as [Hm|Hm].
  - rewrite filter_cons_True by (by apply bool_decide_eq_true).
    rewrite steps_cons. destruct (MouseTracking.returns _ _); [apply IH|done].
  - rewrite filter_cons_False by (by rewrite bool_decide_eq_false_2).
    rewrite returns_not_move, step_not_move by done. apply IH.
Qed.

(** ** Reading the calls of a move *)

Section CallFacts.
Import Qt MouseTracking Phases Observe.

(** The Enter and Leave events between two sets of at most one widget. *)
Lemma sendEventCalls_single old new :
  length old ≤ 1 → length new ≤ 1 →
  sendEventCalls (leaves old new) ++ sendEventCalls (enters old new)
  = if decide (old = new) then []
    else ((λ w, (w, Event Leave)) <$> old) ++ ((λ w, (w, Event Enter)) <$> new).
Proof.
  intros Ho Hn.
  destruct old as [|a [|? ?]]; [| |simpl in Ho; lia];
    (destruct new as [|b [|? ?]]; [| |simpl in Hn; lia]).
  - done.
  - unfold leaves, enters, contains. cbn.
    rewrite bool_decide_eq_false_2 by (by intros ?%elem_of_nil). done.
  - unfold leaves, enters, contains. cbn.
    rewrite bool_decide_eq_false_2 by (by intros ?%elem_of_nil). done.
  - unfold leaves, enters, contains. cbn.
    destruct (decide (a = b)) as [->|Hne].
    + rewrite bool_decide_eq_true_2 by (by apply list_elem_of_singleton).
      by rewrite decide_True.
    + rewrite !bool_decide_eq_false_2
        by (rewrite list_elem_of_singleton; congruence).
      rewrite decide_False by congruence. done.
Qed.
End CallFacts.

(** X3. From a state the tracker reaches from its construction over events
    it has returned from, a mouse-move sends no Enter or Leave event when the
    widget under the cursor is the one of the previous move; otherwise it
    sends a Leave to the old widget, if there was one, and then an Enter to
    the new one, if there is one, and nothing else. *)
Theorem X3_events_of_a_move (tk0 : Qt.Toolkit) (self parent : Qt.QObject)
    (s0 : MouseTracking.t) (ops0 : list Qt.Op)
    (handlers : gmap Qt.QObject Qt.Handler) (inputs : list MouseTracking.Input)
    (tk : Qt.Toolkit) (obj : Qt.QObject) (event : Qt.QEvent) :
  MouseTracking.new tk0 self parent = Some (s0, ops0) →
  Forall (λ i, Observe.safe i = true) inputs →
  Qt.type event = Qt.MouseMove →
  let σ := MouseTracking.steps
             {| MouseTracking.this := s0; MouseTracking.mouseMoveEvent := handlers |}
             inputs in
  let old := MouseTracking._mouseOver (MouseTracking.this σ) in
  let new := MouseTracking._mouseOver
               (MouseTracking.this (MouseTracking.step σ (tk, obj, event))) in
  Observe.sendEventCalls (MouseTracking.eventFilter tk obj event σ).2
  = if decide (old = new) then []
    else ((λ w, (w, Qt.Event Qt.Leave)) <$> old)
         ++ ((λ w, (w, Qt.Event Qt.Enter)) <$> new).
Proof.
  intros Hnew Hsafe Hm. rewrite (new_constructed _ _ _ _ _ handlers Hnew).
  intros σ old new. subst old new.
  destruct (constructed_sets parent handlers inputs Hsafe) as (Hprev & _ & Hlen & _).
  fold σ in Hprev, Hlen.
  destruct (step_move σ tk obj event Hm) as (_ & _ & -> & _).
  rewrite sendEventCalls_of_move by done. rewrite Hprev.
  apply sendEventCalls_single; [done|apply underCursor_length].
Qed.

Lemma X3_events_of_a_move_witness :
  MouseTracking.new (Demo.app None) 7 1
  = Some (MouseTracking.this Demo.fresh, [Qt.InstallEventFilter 1 7])
  ∧ Forall (λ i, Observe.safe i = true) [ (Demo.app (Some 2), 1, Demo.move) ]
  ∧ Qt.type Demo.move = Qt.MouseMove
  ∧ Observe.sendEventCalls
      (MouseTracking.eventFilter (Demo.app (Some 3)) 1 Demo.move
         (MouseTracking.steps Demo.fresh [ (Demo.app (Some 2), 1, Demo.move) ])).2
    = [ (2, Qt.Event Qt.Leave); (3, Qt.Event Qt.Enter) ].
Proof.
  assert (Hsafe : Forall (λ i, Observe.safe i = true)
                    [ (Demo.app (Some 2), 1, Demo.move) ])
    by (repeat constructor).
  split; [reflexivity|]. split; [exact Hsafe|]. split; [reflexivity|].
  exact (X3_events_of_a_move (Demo.app None) 7 1 (MouseTracking.this Demo.fresh)
           [Qt.InstallEventFilter 1 7] ∅ [ (Demo.app (Some 2), 1, Demo.move) ]
           (Demo.app (Some 3)) 1 Demo.move eq_refl Hsafe eq_refl).
Defined.

(** X4. The second of two consecutive mouse-moves calls [releaseMouse] on
    exactly the widgets the first one found under the cursor (the hit widget
    when it is a descendant of the tracked parent, else none), whatever
    widget the first move gave the grab to. *)
Theorem X4_next_move_releases_last_hit (σ : MouseTracking.State)
    (tk1 tk2 : Qt.Toolkit) (obj1 obj2 : Qt.QObject) (event1 event2 : Qt.QEvent) :
  Qt.type event1 = Qt.MouseMove →
  Qt.type event2 = Qt.MouseMove →
  Observe.releaseMouseCalls
    (MouseTracking.eventFilter tk2 obj2 event2
       (MouseTracking.step σ (tk1, obj1, event1))).2
  = Phases.underCursor tk1 (MouseTracking.parent (MouseTracking.this σ)).
Proof.
  intros Hm1 Hm2.
  destruct (step_move σ tk1 obj1 event1 Hm1) as (_ & _ & Hcur & _).
  by rewrite releaseMouseCalls_of_move.
Qed.

Lemma X4_next_move_releases_last_hit_witness :
  Qt.type Demo.move = Qt.MouseMove
  ∧ Phases.grabMouseCalls
      (MouseTracking.eventFilter (Demo.app (Some 2)) 1 Demo.move Demo.fresh).2
    = [9]
  ∧ Observe.releaseMouseCalls
      (MouseTracking.eventFilter (Demo.app (Some 3)) 1 Demo.move
         (MouseTracking.step Demo.fresh (Demo.app (Some 2), 1, Demo.move))).2
    = [2].
Proof.
  split; [reflexivity|]. split; [reflexivity|].
  exact (X4_next_move_releases_last_hit Demo.fresh (Demo.app (Some 2))
           (Demo.app (Some 3)) 1 1 Demo.move Demo.move eq_refl eq_refl).
Defined.

(** ** Handlers over a run *)

Section HandlerFacts.
Import Qt MouseTracking Phases Observe.

Lemma step_filtered σ i w :
  w ∈ _filteredWidgets (this σ) →
  w ∈ _filteredWidgets (this (step σ i)) ∧ handlerOf (step σ i) w = handlerOf σ w.
Proof.
  destruct i as [[tk obj] event]. intros Hw.
  destruct (decide (type event = MouseMove)) as [Hm|Hm].
  - destruct (step_move σ tk obj event Hm) as (_ & _ & _ & Hh & Hf).
    split; [apply Hf; by left|]. rewrite Hh.
    destruct (hasReceiver tk); [|done]. cbn [andb].
    destruct (wraps _ _ _ w) eqn:E; [|done].
    apply wraps_true in E as (_ & _ & ?). done.
  - by rewrite step_not_move.
Qed.

Lemma constructed_handlers p handlers inputs :
  wrappedOnce (constructed p handlers) (steps (constructed p handlers) inputs).
Proof.
  apply (steps_preserve (wrappedOnce (constructed p handlers))).
  - intros σ [[tk obj] event] Hσ w.
    destruct (decide (type event = MouseMove)) as [Hm|Hm];
      [|by rewrite step_not_move].
    destruct (step_move σ tk obj event Hm) as (_ & _ & _ & Hh & Hf).
    rewrite Hh, Hσ.
    destruct (hasReceiver tk
              && wraps tk (_filteredWidgets (this σ))
                   (findChildren tk (parent (this σ))) w) eqn:E.
    + apply andb_true_iff in E as [Hr E].
      apply wraps_true in E as (Hw & Hi & Hn).
      rewrite (bool_decide_eq_false_2 _ Hn).
      rewrite bool_decide_eq_true_2; [done|]. apply Hf. by right.
    + case_bool_decide as Hin.
      * rewrite bool_decide_eq_true_2; [done|]. apply Hf. by left.
      * rewrite bool_decide_eq_false_2; [done|]. rewrite Hf.
        intros [?|(Hr & Hw & Hi)]; [done|].
        assert (wraps tk (_filteredWidgets (this σ))
                  (findChildren tk (parent (this σ))) w = true)
          by (by apply wraps_true).
        rewrite Hr in E. cbn [andb] in E. congruence.
  - intros w. by rewrite bool_decide_eq_false_2 by (simpl; set_unfold; tauto).
Qed.
End HandlerFacts.

(** X5. Once a widget is in the filtered set it stays there, and no later
    event changes its [mouseMoveEvent] handler again. *)
Theorem X5_filtered_widgets_are_left_alone (σ : MouseTracking.State)
    (inputs : list MouseTracking.Input) (w : Qt.QObject) :
  w ∈ MouseTracking._filteredWidgets (MouseTracking.this σ) →
  w ∈ MouseTracking._filteredWidgets
        (MouseTracking.this (MouseTracking.steps σ inputs))
  ∧ MouseTracking.handlerOf (MouseTracking.steps σ inputs) w
    = MouseTracking.handlerOf σ w.
Proof.
  revert σ. induction inputs as [|i inputs IH]; intros σ Hw; [done|].
  rewrite steps_cons. destruct (step_filtered σ i w Hw) as [Hw' Hh].
  destruct (MouseTracking.returns σ i); [|done].
  destruct (IH _ Hw') as [? ->]. done.
Qed.

Lemma X5_filtered_widgets_are_left_alone_witness :
  4 ∈ MouseTracking._filteredWidgets (MouseTracking.this Demo.overButton)
  ∧ MouseTracking.handlerOf
      (MouseTracking.steps Demo.overButton
         [ (Demo.app (Some 4), 1, Demo.move); (Demo.app (Some 3), 1, Demo.move) ]) 4
    = Qt.CallThenIgnore Qt.ClassHandler.
Proof.
  assert (H4 : 4 ∈ MouseTracking._filteredWidgets (MouseTracking.this Demo.overButton))
    by (vm_compute; reflexivity).
  split; [exact H4|].
  exact (proj2 (X5_filtered_widgets_are_left_alone Demo.overButton
    [ (Demo.app (Some 4), 1, Demo.move); (Demo.app (Some 3), 1, Demo.move) ] 4 H4)).
Defined.

(** X6. From construction on, however many mouse-moves are filtered, a
    widget's [mouseMoveEvent] is either the handler it had at construction
    or one wrapper around that handler, and it is the wrapper exactly when
    the widget is in the filtered set: no handler is ever wrapped twice. *)
Theorem X6_handlers_are_wrapped_at_most_once (tk0 : Qt.Toolkit)
    (self parent : Qt.QObject) (s0 : MouseTracking.t) (ops0 : list Qt.Op)
    (handlers : gmap Qt.QObject Qt.Handler) (inputs : list MouseTracking.Input)
    (w : Qt.QObject) :
  MouseTracking.new tk0 self parent = Some (s0, ops0) →
  let σ0 := {| MouseTracking.this := s0; MouseTracking.mouseMoveEvent := handlers |} in
  let σ := MouseTracking.steps σ0 inputs in
  MouseTracking.handlerOf σ w
  = if bool_decide (w ∈ MouseTracking._filteredWidgets (MouseTracking.this σ))
    then Qt.CallThenIgnore (MouseTracking.handlerOf σ0 w)
    else MouseTracking.handlerOf σ0 w.
Proof.
  intros Hnew. rewrite (new_constructed _ _ _ _ _ handlers Hnew).
  apply constructed_handlers.
Qed.

Lemma X6_handlers_are_wrapped_at_most_once_witness :
  MouseTracking.new (Demo.app None) 7 1
  = Some (MouseTracking.this Demo.fresh, [Qt.InstallEventFilter 1 7])
  ∧ MouseTracking.handlerOf
      (MouseTracking.steps Demo.fresh
         [ (Demo.app (Some 4), 1, Demo.move); (Demo.app (Some 4), 1, Demo.move);
           (Demo.app (Some 2), 1, Demo.move) ]) 4
    = Qt.CallThenIgnore Qt.ClassHandler.
Proof.
  split; [reflexivity|].
  exact (X6_handlers_are_wrapped_at_most_once (Demo.app None) 7 1
           (MouseTracking.this Demo.fresh) [Qt.InstallEventFilter 1 7] ∅
           [ (Demo.app (Some 4), 1, Demo.move); (Demo.app (Some 4), 1, Demo.move);
             (Demo.app (Some 2), 1, Demo.move) ] 4 eq_refl).
Defined.

(** X7. Delivering a mouse-move to a widget after any run of the tracker
    runs the handler the widget had at construction exactly as often as
    before (the wrapper calls the handler it captured); for a widget in the
    filtered set the event always ends up ignored, and for any other widget
    the delivery is what it was at construction. *)
Theorem X7_delivery_after_tracking (tk0 : Qt.Toolkit)
    (self parent : Qt.QObject) (s0 : MouseTracking.t) (ops0 : list Qt.Op)
    (handlers : gmap Qt.QObject Qt.Handler) (inputs : list MouseTracking.Input)
    (w : Qt.QObject) (classHandler : bool → bool) (accepted : bool) :
  MouseTracking.new tk0 self parent = Some (s0, ops0) →
  let σ0 := {| MouseTracking.this := s0; MouseTracking.mouseMoveEvent := handlers |} in
  let σ := MouseTracking.steps σ0 inputs in
  Observe.deliver classHandler (MouseTracking.handlerOf σ w) accepted
  = if bool_decide (w ∈ MouseTracking._filteredWidgets (MouseTracking.this σ))
    then ((Observe.deliver classHandler (MouseTracking.handlerOf σ0 w) accepted).1,
          false)
    else Observe.deliver classHandler (MouseTracking.handlerOf σ0 w) accepted.
Proof.
  intros Hnew. rewrite (new_constructed _ _ _ _ _ handlers Hnew). cbv zeta.
  rewrite (constructed_handlers parent handlers inputs w).
  destruct (bool_decide _); [|done]. cbn [Observe.deliver].
  by destruct (Observe.deliver _ _ _).
Qed.

Lemma X7_delivery_after_tracking_witness :
  MouseTracking.new (Demo.app None) 7 1
  = Some (MouseTracking.this Demo.fresh, [Qt.InstallEventFilter 1 7])
  ∧ Observe.deliver (λ _, true)
      (MouseTracking.handlerOf
         (MouseTracking.steps Demo.fresh
            [ (Demo.app (Some 4), 1, Demo.move); (Demo.app (Some 4), 1, Demo.move) ]) 4)
      true
    = (1, false).
Proof.
  split; [reflexivity|].
  exact (X7_delivery_after_tracking (Demo.app None) 7 1
           (MouseTracking.this Demo.fresh) [Qt.InstallEventFilter 1 7] ∅
           [ (Demo.app (Some 4), 1, Demo.move); (Demo.app (Some 4), 1, Demo.move) ]
           4 (λ _, true) true eq_refl).
Defined.

(** X8. A mouse-move that follows a mouse-move under the same toolkit
    snapshot, with a receiver for the grab, does the six phases and nothing
    more: the viewport pass finds every scroll area among the descendants
    already filtered, so it marks and wraps nothing and every handler stays
    as it is. *)
Theorem X8_repeated_move_wraps_nothing (σ : MouseTracking.State)
    (tk : Qt.Toolkit) (obj1 obj2 : Qt.QObject) (event1 event2 : Qt.QEvent) :
  Qt.type event1 = Qt.MouseMove →
  Qt.type event2 = Qt.MouseMove →
  Phases.hasReceiver tk = true →
  let σ1 := MouseTracking.step σ (tk, obj1, event1) in
  (MouseTracking.eventFilter tk obj2 event2 σ1).2
  = Phases.sixPhases tk (MouseTracking.this σ1)
  ∧ ∀ w, MouseTracking.handlerOf (MouseTracking.step σ1 (tk, obj2, event2)) w
         = MouseTracking.handlerOf σ1 w.
Proof.
  intros Hm1 Hm2 Hr σ1.
  destruct (step_move σ tk obj1 event1 Hm1) as (Hp & _ & _ & _ & Hf).
  fold σ1 in Hp, Hf.
  assert (Hnone : ∀ w,
    Phases.wraps tk (MouseTracking._filteredWidgets (MouseTracking.this σ1))
      (Qt.findChildren tk (MouseTracking.parent (MouseTracking.this σ1))) w = false).
  { intros w. apply not_true_is_false. intros (Hw & Hi & Hn)%wraps_true.
    apply Hn, Hf. right. by rewrite <- Hp. }
  unfold Phases.hasReceiver in Hr.
  destruct (Phases.grabTarget tk) as [g|] eqn:Hg; [|done].
  unfold MouseTracking.step.
  destruct (eventFilter_move tk obj2 event2 σ1 g Hm2 Hg)
    as (σ2 & viewport & -> & _ & _ & _ & Hh & Hops & _).
  cbn [fst snd]. split.
  - destruct viewport as [|o viewport]; [by rewrite app_nil_r|].
    apply Forall_cons_1 in Hops as [Ho _].
    destruct o; simpl in Ho; try done.
    + by rewrite Hnone in Ho.
    + destruct Ho as [Ho _]. by rewrite Hnone in Ho.
  - intros w. by rewrite Hh, Hnone.
Qed.

Lemma X8_repeated_move_wraps_nothing_witness :
  Qt.type Demo.move = Qt.MouseMove
  ∧ Phases.hasReceiver (Demo.app (Some 4)) = true
  ∧ (MouseTracking.eventFilter (Demo.app (Some 4)) 1 Demo.move
       (MouseTracking.step Demo.fresh (Demo.app (Some 4), 1, Demo.move))).2
    = [ Qt.ReleaseMouse 4;
        Qt.Set_widgets [2; 3; 4]; Qt.WidgetAt (10, 20)%Z; Qt.Set_mouseOver [4];
        Qt.WidgetAt (10, 20)%Z; Qt.GrabMouse 4;
        Qt.Set_prevMouseOver [4] ].
Proof.
  split; [reflexivity|]. split; [reflexivity|].
  exact (proj1 (X8_repeated_move_wraps_nothing Demo.fresh (Demo.app (Some 4)) 1 1
                  Demo.move Demo.move eq_refl eq_refl eq_refl)).
Defined.

(** X9. [EventFactoryFilter::eventFilter] treats all events alike: for one
    filter and one state of the toolkit it consumes either every event,
    whatever its type and whatever object is watched, or none. *)
Theorem X9_all_events_or_none (tk : Qt.Toolkit) (self : EventFactoryFilter.t)
    (obj1 obj2 : Qt.QObject) (event1 event2 : Qt.QEvent) :
  (EventFactoryFilter.eventFilter tk self obj1 event1).1
  = (EventFactoryFilter.eventFilter tk self obj2 event2).1.
Proof.
  unfold EventFactoryFilter.eventFilter, EventFactoryFilter.formatEventName.
  rewrite !regex_match_number. by destruct (_ <=? _)%Z.
Qed.

(** ** Who grabs, who is entered, who is released *)

Section GrabFacts.
Import Qt MouseTracking Phases Observe.

Lemma firstCondition_false tk conditions w :
  firstCondition tk conditions w = false ↔
  ∃ widgetType condition,
    (widgetType, condition) ∈ conditions
    ∧ inherits tk w widgetType = true ∧ condition w = true.
Proof.
  induction conditions as [|[ty c] rest IH]; simpl.
  - split; [done|]. by intros (? & ? & ?%elem_of_nil & _).
  - destruct (inherits tk w ty && c w) eqn:E.
    + split; [|done]. intros _. apply andb_true_iff in E as [? ?].
      exists ty, c. split; [by left|done].
    + rewrite IH. split.
      * intros (ty' & c' & Hin & ? & ?). exists ty', c'. split; [by right|done].
      * intros (ty' & c' & Hin & Hi & Hc).
        apply elem_of_cons in Hin as [[= -> ->]|Hin]; [|by eauto].
        rewrite Hi, Hc in E. done.
Qed.
End GrabFacts.

(** X10. A widget under the cursor that is not a descendant of the tracked
    parent and is not a control at rest takes the mouse grab all the same;
    but the tracker does not record it: the under-cursor set is empty after
    the move, no Enter event is sent to it, and the next mouse-move calls
    [releaseMouse] on nothing. *)
Theorem X10_untracked_widget_grabs (σ : MouseTracking.State)
    (tk tk' : Qt.Toolkit) (obj obj' : Qt.QObject) (event event' : Qt.QEvent)
    (w : Qt.QObject) :
  Qt.type event = Qt.MouseMove →
  Qt.type event' = Qt.MouseMove →
  Qt.widgetAt tk (Qt.cursor_pos tk) = Some w →
  w ∉ Qt.findChildren tk (MouseTracking.parent (MouseTracking.this σ)) →
  Phases.atRest tk w = false →
  let σ1 := MouseTracking.step σ (tk, obj, event) in
  Phases.grabMouseCalls (MouseTracking.eventFilter tk obj event σ).2 = [w]
  ∧ MouseTracking._mouseOver (MouseTracking.this σ1) = []
  ∧ (Qt.SendEvent w (Qt.Event Qt.Enter)
       ∉ (MouseTracking.eventFilter tk obj event σ).2)
  ∧ Observe.releaseMouseCalls (MouseTracking.eventFilter tk' obj' event' σ1).2 = [].
Proof.
  intros Hm Hm' Htop Hout Hrest σ1.
  destruct (step_move σ tk obj event Hm) as (_ & _ & Hcur & _). fold σ1 in Hcur.
  assert (Hnone : Phases.underCursor tk (MouseTracking.parent (MouseTracking.this σ))
                  = []).
  { unfold Phases.underCursor, MouseTracking.contains. rewrite Htop.
    by rewrite bool_decide_eq_false_2. }
  split; [|split; [|split]].
  - rewrite grabMouseCalls_move by done. unfold Phases.grabTarget.
    by rewrite Htop, Hrest.
  - by rewrite Hcur.
  - rewrite sendEvent_move by done. rewrite Hnone.
    intros [([=] & _)|(_ & ?%elem_of_nil & _)]. done.
  - rewrite releaseMouseCalls_of_move by done. by rewrite Hcur.
Qed.

Lemma X10_untracked_widget_grabs_witness :
  Qt.type Demo.move = Qt.MouseMove
  ∧ Qt.widgetAt (Demo.app (Some 9)) (Qt.cursor_pos (Demo.app (Some 9))) = Some 9
  ∧ (9 ∉ Qt.findChildren (Demo.app (Some 9))
           (MouseTracking.parent (MouseTracking.this Demo.overButton)))
  ∧ Phases.atRest (Demo.app (Some 9)) 9 = false
  ∧ Phases.grabMouseCalls
      (MouseTracking.eventFilter (Demo.app (Some 9)) 1 Demo.move Demo.overButton).2
    = [9]
  ∧ Observe.releaseMouseCalls
      (MouseTracking.eventFilter (Demo.app (Some 2)) 1 Demo.move
         (MouseTracking.step Demo.overButton (Demo.app (Some 9), 1, Demo.move))).2
    = [].
Proof.
  assert (Hout : 9 ∉ Qt.findChildren (Demo.app (Some 9))
                       (MouseTracking.parent (MouseTracking.this Demo.overButton))).
  { apply (bool_decide_unpack _). vm_compute. exact I. }
  split; [reflexivity|]. split; [reflexivity|]. split; [exact Hout|].
  split; [reflexivity|].
  pose proof (X10_untracked_widget_grabs Demo.overButton (Demo.app (Some 9))
                (Demo.app (Some 2)) 1 1 Demo.move Demo.move 9
                eq_refl eq_refl eq_refl Hout eq_refl) as (Hg & _ & _ & Hr).
  split; [exact Hg|exact Hr].
Defined.

(** X11. When the widget under the cursor is a descendant of the tracked
    parent but a control at rest, and the active window is another object,
    the one [grabMouse] call of the move is made on the active window and
    none on the widget, while the widget becomes the under-cursor set; the
    next mouse-move then calls [releaseMouse] on that widget, although the
    move before gave the grab to the active window and not to it. *)
Theorem X11_release_without_grab (σ : MouseTracking.State)
    (tk tk' : Qt.Toolkit) (obj obj' : Qt.QObject) (event event' : Qt.QEvent)
    (w window : Qt.QObject) :
  Qt.type event = Qt.MouseMove →
  Qt.type event' = Qt.MouseMove →
  Qt.widgetAt tk (Qt.cursor_pos tk) = Some w →
  w ∈ Qt.findChildren tk (MouseTracking.parent (MouseTracking.this σ)) →
  Phases.atRest tk w = true →
  Qt.activeWindow tk = Some window →
  window ≠ w →
  let σ1 := MouseTracking.step σ (tk, obj, event) in
  Phases.grabMouseCalls (MouseTracking.eventFilter tk obj event σ).2 = [window]
  ∧ (w ∉ Phases.grabMouseCalls (MouseTracking.eventFilter tk obj event σ).2)
  ∧ MouseTracking._mouseOver (MouseTracking.this σ1) = [w]
  ∧ Observe.releaseMouseCalls (MouseTracking.eventFilter tk' obj' event' σ1).2 = [w].
Proof.
  intros Hm Hm' Htop Hin Hrest Hwin Hne σ1.
  destruct (step_move σ tk obj event Hm) as (_ & _ & Hcur & _). fold σ1 in Hcur.
  assert (Hone : Phases.underCursor tk (MouseTracking.parent (MouseTracking.this σ))
                 = [w]).
  { unfold Phases.underCursor, MouseTracking.contains. rewrite Htop.
    by rewrite bool_decide_eq_true_2. }
  assert (Hgrab : Phases.grabMouseCalls (MouseTracking.eventFilter tk obj event σ).2
                  = [window]).
  { rewrite grabMouseCalls_move by done. unfold Phases.grabTarget.
    by rewrite Htop, Hrest, Hwin. }
  split; [exact Hgrab|]. split; [|split].
  - rewrite Hgrab. by intros ->%list_elem_of_singleton.
  - by rewrite Hcur.
  - rewrite releaseMouseCalls_of_move by done. by rewrite Hcur.
Qed.

Lemma X11_release_without_grab_witness :
  Qt.type Demo.move = Qt.MouseMove
  ∧ Qt.widgetAt (Demo.app (Some 2)) (Qt.cursor_pos (Demo.app (Some 2))) = Some 2
  ∧ (2 ∈ Qt.findChildren (Demo.app (Some 2))
           (MouseTracking.parent (MouseTracking.this Demo.fresh)))
  ∧ Phases.atRest (Demo.app (Some 2)) 2 = true
  ∧ Qt.activeWindow (Demo.app (Some 2)) = Some 9
  ∧ 9 ≠ 2
  ∧ Phases.grabMouseCalls
      (MouseTracking.eventFilter (Demo.app (Some 2)) 1 Demo.move Demo.fresh).2
    = [9]
  ∧ Observe.releaseMouseCalls
      (MouseTracking.eventFilter (Demo.app (Some 4)) 1 Demo.move
         (MouseTracking.step Demo.fresh (Demo.app (Some 2), 1, Demo.move))).2
    = [2].
Proof.
  assert (Hin : 2 ∈ Qt.findChildren (Demo.app (Some 2))
                      (MouseTracking.parent (MouseTracking.this Demo.fresh))).
  { apply (bool_decide_unpack _). vm_compute. exact I. }
  assert (Hne : 9 ≠ 2) by lia.
  split; [reflexivity|]. split; [reflexivity|]. split; [exact Hin|].
  split; [reflexivity|]. split; [reflexivity|]. split; [exact Hne|].
  pose proof (X11_release_without_grab Demo.fresh (Demo.app (Some 2))
                (Demo.app (Some 4)) 1 1 Demo.move Demo.move 2 9
                eq_refl eq_refl eq_refl Hin eq_refl eq_refl Hne) as (Hg & _ & _ & Hr).
  split; [exact Hg|exact Hr].
Defined.

(** X12. The loop of [shouldCaptureMouse] refuses the capture if and only if
    some entry of the condition table applies to the widget (the widget
    inherits the entry's class and the entry's condition holds); so the
    answer does not depend on the order of the table's entries. *)
Theorem X12_capture_refused_iff_an_entry_applies (tk : Qt.Toolkit)
    (conditions conditions' : list (string * (Qt.QObject → bool)))
    (w : Qt.QObject) :
  (MouseTracking.firstCondition tk conditions w = false ↔
   ∃ widgetType condition,
     (widgetType, condition) ∈ conditions
     ∧ Qt.inherits tk w widgetType = true ∧ condition w = true)
  ∧ (conditions ≡ₚ conditions' →
     MouseTracking.firstCondition tk conditions w
     = MouseTracking.firstCondition tk conditions' w).
Proof.
  split; [apply firstCondition_false|]. intros Hperm.
  destruct (MouseTracking.firstCondition tk conditions w) eqn:E1,
           (MouseTracking.firstCondition tk conditions' w) eqn:E2; try done.
  - apply firstCondition_false in E2 as (ty & c & Hin & ? & ?).
    rewrite <- Hperm in Hin.
    assert (MouseTracking.firstCondition tk conditions w = false)
      by (apply firstCondition_false; eauto).
    congruence.
  - apply firstCondition_false in E1 as (ty & c & Hin & ? & ?).
    rewrite Hperm in Hin.
    assert (MouseTracking.firstCondition tk conditions' w = false)
      by (apply firstCondition_false; eauto).
    congruence.
Qed.
